(** * Verification of the conversation orchestration layer

    A shallow embedding of the control and state layer of the water-utility
    assistant:

    - [Verification]: the phone verification table of
      [app/utilities/database.py] (and the second writer of that table in
      [simple_mcp_server.py]);
    - [Agent]: the graph nodes, the turn entry point and the reaper of
      [app/agent/agent.py];
    - [Tools]: the tools of [app/agent/tools.py] and the prompts they build;
    - [Directory], [Zip], [VerifyTool], [Meter]: the verification status
      query, the ZIP code search with the outage status tool, the phone
      verification tool and the meter tools;
    - [Routes]: the chat and reset routes of [app/routes/api.py].

    SQL tables are lists of rows, [None] is Python's [None] (SQL's NULL), a
    Python exception is the [Raise] case of [result]. *)

From Stdlib Require Import String Ascii List ZArith Bool Lia PrimFloat.
Import ListNotations.

Local Open Scope string_scope.
Local Open Scope list_scope.

(** ** Python values shared by the three modules *)

(** The exceptions the embedded code can raise. *)
Inductive exn : Type :=
| ValueError (msg : string)
| TypeError (msg : string)
| AttributeError (msg : string)
| IndexError (msg : string)
| UnboundLocalError (msg : string)
| RuntimeFailure (msg : string).

Inductive result (A : Type) : Type :=
| Ok (a : A)
| Raise (e : exn).

Arguments Ok {A} a.
Arguments Raise {A} e.

Definition bind {A B : Type} (r : result A) (k : A -> result B) : result B :=
  match r with
  | Ok a => k a
  | Raise e => Raise e
  end.

Declare Scope py_scope.
Delimit Scope py_scope with py.
Notation "x <- r ;; k" := (bind r (fun x => k))
  (at level 61, r at next level, right associativity) : py_scope.

(** Truthiness of [str | None] and [bool | None], as [if x:] tests it. *)
Definition truthy_str (s : option string) : bool :=
  match s with
  | None => false
  | Some s => negb (s =? EmptyString)
  end.

Definition truthy_bool (b : option bool) : bool :=
  match b with
  | Some true => true
  | _ => false
  end.

(** [str(x)] inside an f-string for a value that may be [None]. *)
Definition fstr (s : option string) : string :=
  match s with
  | None => "None"
  | Some s => s
  end.

(** SQL's [col = :param]: NULL is equal to nothing. *)
Definition sql_eq (col param : option string) : bool :=
  match col, param with
  | Some a, Some b => a =? b
  | _, _ => false
  end.

(* ====================================================================== *)
(** ** The phone verification table (database.py) *)
(* ====================================================================== *)

Module Verification.

(** The columns of [accounts] the verification code reads. *)
Record Account : Type := mkAccount {
  account_id : string;
  name : option string;
  address : option string;
  phone : option string
}.

(** A row of [phone_verifications].  The columns [id], [created_at] and
    [updated_at] are filled by defaults and never read. *)
Record row : Type := mkRow {
  phone_number : string;
  row_account_id : option string;
  verified_at : Z;
  session_id : option string;
  verification_method : string;
  is_active : bool
}.

Definition table : Type := list row.

(** The dict [get_active_phone_verification] returns. *)
Record verification : Type := mkVerification {
  v_phone_number : string;
  v_account_id : option string;
  v_verified_at : Z;
  v_session_id : option string;
  v_verification_method : string
}.

Definition to_dict (r : row) : verification :=
  {| v_phone_number := phone_number r;
     v_account_id := row_account_id r;
     v_verified_at := verified_at r;
     v_session_id := session_id r;
     v_verification_method := verification_method r |}.

(** [session.query(Account).filter(Account.phone == phone_number).first()];
    the ORM renders a comparison with [None] as [phone IS NULL]. *)
Definition get_customer_by_phone (accounts : list Account) (p : option string)
  : option Account :=
  match p with
  | Some _ => find (fun a => sql_eq (phone a) p) accounts
  | None => find (fun a => match phone a with None => true | Some _ => false end)
              accounts
  end.

(** [WHERE phone_number = :phone_number AND is_active = 1] *)
Definition active_for (p : string) (r : row) : bool :=
  (phone_number r =? p) && is_active r.

(** [DatabaseManager.verify_phone_number]: the returned flag and the table
    the session commits.  [now] is CURRENT_TIMESTAMP. *)
Definition verify_phone_number (accounts : list Account) (p : string)
    (sid : option string) (now : Z) (t : table) : bool * table :=
  match get_customer_by_phone accounts (Some p) with
  | None => (false, t)
  | Some customer =>
      if existsb (active_for p) t then (true, t)
      else
        let cleared : table := [] in            (* DELETE FROM phone_verifications *)
        let inserted := cleared ++
          [ {| phone_number := p;
               row_account_id := Some (account_id customer);
               verified_at := now;
               session_id := sid;
               verification_method := "ui_verification";
               is_active := true |} ] in
        (true, inserted)
  end.

(** [ORDER BY verified_at DESC LIMIT 1]; among equal timestamps the row met
    first is kept. *)
Fixpoint latest (rs : list row) : option row :=
  match rs with
  | [] => None
  | r :: rest =>
      match latest rest with
      | None => Some r
      | Some r' => if (verified_at r <? verified_at r')%Z then Some r' else Some r
      end
  end.

(** [DatabaseManager.get_active_phone_verification] *)
Definition get_active_phone_verification (t : table) : option verification :=
  option_map to_dict (latest (filter is_active t)).

Definition active_count (t : table) : nat := length (filter is_active t).

(** [DatabaseManager.deactivate_phone_verification] *)
Definition deactivate_phone_verification (p : string) (t : table) : bool * table :=
  let hit (r : row) := phone_number r =? p in
  (existsb hit t,
   map (fun r => if hit r
                 then {| phone_number := phone_number r;
                         row_account_id := row_account_id r;
                         verified_at := verified_at r;
                         session_id := session_id r;
                         verification_method := verification_method r;
                         is_active := false |}
                 else r) t).

(** [DatabaseManager.clear_phone_verifications_by_session] *)
Definition clear_phone_verifications_by_session (sid : option string) (t : table)
  : bool * table :=
  (existsb (fun r => sql_eq (session_id r) sid) t,
   filter (fun r => negb (sql_eq (session_id r) sid)) t).

(** [DatabaseManager.clear_all_phone_verifications] *)
Definition clear_all_phone_verifications (t : table) : bool * table :=
  (true, []).

(** The second writer of the table, [verify_phone_number] of
    simple_mcp_server.py: it keeps history and flips [is_active].  Both of
    its statements are taken to succeed; when the INSERT fails the session
    rolls the UPDATE back and the table is as it was. *)
Definition mcp_verify_phone_number (accounts : list Account) (p : string)
    (fresh_session : string) (now : Z) (t : table) : table :=
  match get_customer_by_phone accounts (Some p) with
  | None => t
  | Some customer =>
      let deactivated :=
        map (fun r => if is_active r
                      then {| phone_number := phone_number r;
                              row_account_id := row_account_id r;
                              verified_at := verified_at r;
                              session_id := session_id r;
                              verification_method := verification_method r;
                              is_active := false |}
                      else r) t in
      deactivated ++
        [ {| phone_number := p;
             row_account_id := Some (account_id customer);
             verified_at := now;
             session_id := Some fresh_session;
             verification_method := "phone_number";
             is_active := true |} ]
  end.

(** The calls that write the table, and a history of them run from the
    empty table the creation script leaves. *)
Inductive op : Type :=
| OpVerify (accounts : list Account) (p : string) (sid : option string) (now : Z)
| OpMcpVerify (accounts : list Account) (p : string) (fresh_session : string) (now : Z)
| OpDeactivate (p : string)
| OpClearBySession (sid : option string)
| OpClearAll.

Definition step (t : table) (o : op) : table :=
  match o with
  | OpVerify accounts p sid now => snd (verify_phone_number accounts p sid now t)
  | OpMcpVerify accounts p s now => mcp_verify_phone_number accounts p s now t
  | OpDeactivate p => snd (deactivate_phone_verification p t)
  | OpClearBySession sid => snd (clear_phone_verifications_by_session sid t)
  | OpClearAll => snd (clear_all_phone_verifications t)
  end.

Definition run (history : list op) : table := fold_left step history [].

(** *** A directory and a history for the scenarios *)

Definition sample_accounts : list Account :=
  [ {| account_id := "ACC-1"; name := Some "Ada Park";
       address := Some "1 Elm St"; phone := Some "5550000001" |};
    {| account_id := "ACC-2"; name := Some "Bo Lind";
       address := Some "2 Oak St"; phone := Some "5550000002" |};
    {| account_id := "ACC-3"; name := Some "Cy Moss";
       address := None; phone := Some "5550000003" |} ].

Definition sample_history : list op :=
  [ OpVerify sample_accounts "5550000001" (Some "s1") 100;
    OpMcpVerify sample_accounts "5550000002" "s2" 200;
    OpVerify sample_accounts "5550000002" None 300;
    OpDeactivate "5550000002" ].

(** The row a verification of 5550000003 at time 400 inserts. *)
Definition sample_row : row :=
  {| phone_number := "5550000003";
     row_account_id := Some "ACC-3";
     verified_at := 400;
     session_id := Some "s3";
     verification_method := "ui_verification";
     is_active := true |}.

End Verification.

(* ====================================================================== *)
(** ** The dialogue state (state.py) *)
(* ====================================================================== *)

Module State.

Inductive message : Type :=
| SystemMessage (content : string)
| HumanMessage (content : string)
| AIMessage (content : string) (tool_calls : list string)
| ToolMessage (content : string).

Definition content (m : message) : string :=
  match m with
  | SystemMessage c | HumanMessage c | AIMessage c _ | ToolMessage c => c
  end.

(** [UtilityAgentState].  A key the dict does not hold reads as [None]
    through [state.get].  The [llm] entry is a client handle and carries no
    data. *)
Record UtilityAgentState : Type := mkState {
  messages : list message;
  verified_customer : option bool;
  phone_number : option string;
  local_data : option bool;
  account_id : option string;
  registered_address : option string;
  customer_name : option string;
  balance : option float;
  days_left : option Z;
  used : option float;
  read_date : option string;
  charge_amount : option float
}.

(** [state["verified_customer"] = v] *)
Definition set_verified_customer (v : option bool) (s : UtilityAgentState)
  : UtilityAgentState :=
  {| messages := messages s;
     verified_customer := v;
     phone_number := phone_number s;
     local_data := local_data s;
     account_id := account_id s;
     registered_address := registered_address s;
     customer_name := customer_name s;
     balance := balance s;
     days_left := days_left s;
     used := used s;
     read_date := read_date s;
     charge_amount := charge_amount s |}.

(** The state a thread has before anything was written to it. *)
Definition empty_state : UtilityAgentState :=
  {| messages := [];
     verified_customer := None;
     phone_number := None;
     local_data := None;
     account_id := None;
     registered_address := None;
     customer_name := None;
     balance := None;
     days_left := None;
     used := None;
     read_date := None;
     charge_amount := None |}.

(** The [update] dict of a [Command].  [None] is a key the dict does not
    hold; an inner [None] is the Python value [None] under a key it holds. *)
Record update : Type := mkUpdate {
  u_verified_customer : option bool;
  u_messages : list message;
  u_local_data : option bool;
  u_account_id : option string;
  u_customer_name : option (option string);
  u_registered_address : option (option string);
  u_balance : option float;
  u_days_left : option Z;
  u_used : option float;
  u_read_date : option (option string);
  u_charge_amount : option float
}.

(** What a node hands back to the graph. *)
Inductive node_output : Type :=
| Command (goto : string) (upd : option update)
| MessagesUpdate (msgs : list message).

Definition goto_of (o : node_output) : option string :=
  match o with
  | Command g _ => Some g
  | MessagesUpdate _ => None
  end.

End State.

(* ====================================================================== *)
(** ** The orchestrator (agent.py) *)
(* ====================================================================== *)

Module Agent.
Import State.

(** [chatbot], the entry node of the graph.  The second component is the
    state dict as the node leaves it (it is assigned to in place). *)
Definition chatbot (llm_with_tools : list message -> result message)
    (state : UtilityAgentState) : result node_output * UtilityAgentState :=
  let verified_customer := State.verified_customer state in
  let phone_number := State.phone_number state in
  let state :=
    if negb (truthy_bool verified_customer) && truthy_str phone_number
    then set_verified_customer (Some true) state
    else state in
  if negb (truthy_bool verified_customer)
  then (Ok (Command "verify_customer" None), state)
  else (bind (llm_with_tools (messages state))
          (fun reply => Ok (MessagesUpdate [reply])),
        state).

(** The dict [my_usage] returns when it returns one. *)
Record usage : Type := mkUsage {
  usage_name : option string;
  usage_balance : float;
  usage_days_left : Z;
  usage_used : float;
  usage_read_date : option string;
  usage_charge_amount : float
}.

Section Collaborators.

(** The text [get_system_prompt()] returns. *)
Variable system_prompt : string.
(** [soap_api.my_alerts]: phone number to account id, or [None]. *)
Variable my_alerts : option string -> option string.
(** [soap_api.my_usage]: account id to usage snapshot, or [None]. *)
Variable my_usage : string -> option usage.
(** The [accounts] table [get_customer_by_phone] queries. *)
Variable accounts : list Verification.Account.

Definition greeting (full_name : option string) : message :=
  SystemMessage
    (system_prompt ++ "

The customer's full name is " ++ fstr full_name
     ++ ". Greet them with their first name, and do not use it too often.")%string.

(** [get_db_manager().get_customer_by_phone(phone_number)] *)
Definition lookup_local (phone_number : option string)
  : option Verification.Account :=
  Verification.get_customer_by_phone accounts phone_number.

(** The part of [verify_customer] after the SOAP branch. *)
Definition verify_local (phone_number : option string) : node_output :=
  match lookup_local phone_number with
  | Some customer =>
      Command "chatbot"
        (Some {| u_verified_customer := Some true;
                 u_messages := [greeting (Verification.name customer)];
                 u_local_data := Some true;
                 u_account_id := Some (Verification.account_id customer);
                 u_customer_name := Some (Verification.name customer);
                 u_registered_address := Some (Verification.address customer);
                 u_balance := None;
                 u_days_left := None;
                 u_used := None;
                 u_read_date := None;
                 u_charge_amount := None |})
  | None =>
      Command "chatbot"
        (Some {| u_verified_customer := Some false;
                 u_messages :=
                   [SystemMessage
                      (system_prompt ++ "

Customer verification will be handled through phone number verification.")%string];
                 u_local_data := None;
                 u_account_id := None;
                 u_customer_name := None;
                 u_registered_address := None;
                 u_balance := None;
                 u_days_left := None;
                 u_used := None;
                 u_read_date := None;
                 u_charge_amount := None |})
  end.

(** [UtilityAgent.verify_customer] *)
Definition verify_customer (state : UtilityAgentState) : result node_output :=
  let phone_number := State.phone_number state in
  let account_id := my_alerts phone_number in
  match account_id with
  | Some aid =>
      if truthy_str account_id then
        match my_usage aid with
        | None =>
            (* data['name'] with data = None *)
            Raise (TypeError "'NoneType' object is not subscriptable")
        | Some data =>
            Ok (Command "chatbot"
                  (Some {| u_verified_customer := Some true;
                           u_messages := [greeting (usage_name data)];
                           u_local_data := Some false;
                           u_account_id := Some aid;
                           u_customer_name := Some (usage_name data);
                           u_registered_address := None;
                           u_balance := Some (usage_balance data);
                           u_days_left := Some (usage_days_left data);
                           u_used := Some (usage_used data);
                           u_read_date := Some (usage_read_date data);
                           u_charge_amount := Some (usage_charge_amount data) |}))
        end
      else Ok (verify_local phone_number)
  | None => Ok (verify_local phone_number)
  end.

End Collaborators.

(** *** The stores behind a turn *)

(** A row of the checkpointer's [checkpoints] table: the thread it belongs
    to and the state it holds. *)
Record checkpoint_row : Type := mkCheckpoint {
  thread_id : string;
  checkpoint : UtilityAgentState
}.

(** A naive UTC [datetime] is kept as its count of microseconds; order and
    [timedelta] arithmetic are those of the count. *)
Definition datetime : Type := Z.

Definition timedelta_minutes (m : Z) : Z := (m * 60 * 1000000)%Z.

(** The text of a [last_message_time] cell: [isoformat()] of a datetime, or
    text that is no ISO timestamp. *)
Inductive time_text : Type :=
| IsoFormat (t : datetime)
| NotIso (s : string).

Definition fromisoformat (s : time_text) : result datetime :=
  match s with
  | IsoFormat t => Ok t
  | NotIso s => Raise (ValueError ("Invalid isoformat string: '" ++ s ++ "'")%string)
  end.

(** A row of [ttl]. *)
Record ttl_row : Type := mkTtl {
  ttl_thread_id : option string;
  last_message_time : option time_text
}.

(** What a call of [graph.stream] was given. *)
Record graph_input : Type := mkInput {
  in_messages : list message;
  in_phone_number : option string
}.

(** The database file of the agent and the record of graph runs. *)
Record world : Type := mkWorld {
  checkpoints : list checkpoint_row;
  ttl : list ttl_row;
  invocations : list (graph_input * option string)
}.

(** [INSERT INTO ttl ... ON CONFLICT(thread_id) DO UPDATE SET
    last_message_time=excluded.last_message_time] *)
Definition ttl_upsert (thread : option string) (time : time_text)
    (rows : list ttl_row) : list ttl_row :=
  if existsb (fun r => sql_eq (ttl_thread_id r) thread) rows
  then map (fun r => if sql_eq (ttl_thread_id r) thread
                     then {| ttl_thread_id := ttl_thread_id r;
                             last_message_time := Some time |}
                     else r) rows
  else rows ++ [ {| ttl_thread_id := thread; last_message_time := Some time |} ].

Definition placeholder : string :=
  "ignore this message. Dont reply to this message".

(** The first argument of [self.graph.stream(...)]. *)
Definition make_input (user_input phone_number : option string) : graph_input :=
  {| in_messages :=
       [HumanMessage (match user_input with
                      | Some text => if truthy_str user_input then text else placeholder
                      | None => placeholder
                      end)];
     in_phone_number := phone_number |}.

(** [for event in events: last_message = event["messages"][-1]] *)
Fixpoint last_message_loop (events : list UtilityAgentState)
    (last_message : option message) : result (option message) :=
  match events with
  | [] => Ok last_message
  | event :: rest =>
      match rev (messages event) with
      | [] => Raise (IndexError "list index out of range")
      | m :: _ => last_message_loop rest (Some m)
      end
  end.

Section Graph.

(** The compiled graph with its checkpointer: from the input, the thread
    id and the checkpoint table to the states it yields (or the exception
    it ends with) and the checkpoint table it leaves. *)
Variable graph_stream :
  graph_input -> option string -> list checkpoint_row ->
  result (list UtilityAgentState) * list checkpoint_row.

(** [UtilityAgent.process_message]; [now] is [datetime.utcnow()]. *)
Definition process_message (user_input phone_number session_id : option string)
    (now : datetime) (w : world) : result string * world :=
  if negb (truthy_str phone_number)
  then (Raise (ValueError "Phone number is required"), w)
  else
    let input := make_input user_input phone_number in
    let '(events, saved) := graph_stream input session_id (checkpoints w) in
    let w :=
      {| checkpoints := saved;
         ttl := ttl w;
         invocations := invocations w ++ [(input, session_id)] |} in
    match bind events (fun evs => last_message_loop evs None) with
    | Raise e => (Raise e, w)
    | Ok None =>
        (Raise (UnboundLocalError
                  "cannot access local variable 'last_message'"), w)
    | Ok (Some last_message) =>
        (Ok (content last_message),
         {| checkpoints := checkpoints w;
            ttl := ttl_upsert session_id (IsoFormat now) (ttl w);
            invocations := invocations w |})
    end.

End Graph.

(** [UtilityAgent.clear_memory]:
    [DELETE FROM checkpoints WHERE thread_id = ?] *)
Definition clear_memory (session_id : option string) (w : world) : world :=
  {| checkpoints :=
       filter (fun r => negb (sql_eq (Some (thread_id r)) session_id))
              (checkpoints w);
     ttl := ttl w;
     invocations := invocations w |}.

(** The loop variables of [clear_old_checkpoints]: the stores, the counter
    [cleared] and the threads [clear_memory] was called on. *)
Record sweep : Type := mkSweep {
  sw_world : world;
  cleared : nat;
  clear_calls : list (option string)
}.

Definition sweep_row (stale_cutoff : datetime) (s : sweep) (r : ttl_row) : sweep :=
  match last_message_time r with
  | None => s                                   (* continue *)
  | Some text =>
      match fromisoformat text with
      | Raise _ => s                            (* logged by the inner except *)
      | Ok last_time =>
          if (last_time <? stale_cutoff)%Z
          then {| sw_world := clear_memory (ttl_thread_id r) (sw_world s);
                  cleared := S (cleared s);
                  clear_calls := clear_calls s ++ [ttl_thread_id r] |}
          else s
      end
  end.

(** A TTL row the sweep acts on: it holds an ISO timestamp strictly before
    the cutoff. *)
Definition stale_row (stale_cutoff : datetime) (r : ttl_row) : bool :=
  match last_message_time r with
  | Some (IsoFormat last_time) => (last_time <? stale_cutoff)%Z
  | _ => false
  end.

(** A checkpoint row no stale TTL row names. *)
Definition survives (stale_cutoff : datetime) (rows : list ttl_row)
    (c : checkpoint_row) : bool :=
  negb (existsb (fun r => stale_row stale_cutoff r
                          && sql_eq (Some (thread_id c)) (ttl_thread_id r)) rows).

(** Two threads, last heard of 46 and 10 minutes before [now]. *)
Definition two_thread_world (now : datetime) (cps : list checkpoint_row)
    (runs : list (graph_input * option string)) : world :=
  {| checkpoints := cps;
     ttl := [ {| ttl_thread_id := Some "thread-46";
                 last_message_time := Some (IsoFormat (now - 46 * 60 * 1000000)%Z) |};
              {| ttl_thread_id := Some "thread-10";
                 last_message_time := Some (IsoFormat (now - 10 * 60 * 1000000)%Z) |} ];
     invocations := runs |}.

(** [UtilityAgent.clear_old_checkpoints]; [now] is [datetime.utcnow()]. *)
Definition clear_old_checkpoints (now : datetime) (w : world) : sweep :=
  let stale_cutoff := (now - timedelta_minutes 45)%Z in
  let rows := ttl w in
  fold_left (sweep_row stale_cutoff) rows
    {| sw_world := w; cleared := 0; clear_calls := [] |}.

(** The status of the [HTTPException] the handlers around
    [process_message] in the chat route of routes/api.py raise for an
    exception of the turn: a [ValueError] is their validation error. *)
Definition chat_route_status (e : exn) : Z :=
  match e with
  | ValueError _ => 400
  | _ => 500
  end.

(** *** States and collaborators of the scenarios *)

(** The state of a turn on a thread that is not verified: the message and
    phone number [process_message] passed in, [verified_customer] as given. *)
Definition unverified_state (verified : option bool) (phone_number : option string)
    (history : list message) : UtilityAgentState :=
  {| messages := history;
     verified_customer := verified;
     phone_number := phone_number;
     local_data := None;
     account_id := None;
     registered_address := None;
     customer_name := None;
     balance := None;
     days_left := None;
     used := None;
     read_date := None;
     charge_amount := None |}.

(** A MyAlerts service that knows the caller as account [A-100]. *)
Definition alerts_finds_account (phone_number : option string) : option string :=
  Some "A-100".

(** A MyUsage service that answers with an HTTP error: [my_usage] logs it
    and returns [None]. *)
Definition usage_unavailable (account_id : string) : option usage := None.

End Agent.

(* ====================================================================== *)
(** ** The tools (tools.py) and their prompts (prompts.py) *)
(* ====================================================================== *)

Module Tools.
Import State.

(** The double quote character, for the quotes the prompts contain. *)
Definition dq : string := String (ascii_of_nat 34) EmptyString.

(** [prompts.get_time_extraction_prompt] *)
Definition get_time_extraction_prompt (user_input current_time : string) : string :=
  ("Extract the outage start time from the following message.
    The time can be in various formats:
    - Exact time (e.g., " ++ dq ++ "2:30 PM" ++ dq ++ ", " ++ dq ++ "14:30" ++ dq ++ ")
    - Relative time (e.g., " ++ dq ++ "2 hours ago" ++ dq ++ ", " ++ dq ++ "yesterday" ++ dq ++ ", " ++ dq ++ "3 days ago" ++ dq ++ ")
    - Date and time (e.g., " ++ dq ++ "June 4, 2025 at 2:30 PM" ++ dq ++ ")

    Message: " ++ dq ++ user_input ++ dq ++ "

    Respond with ONLY the extracted time in the format (YYYY-MM-DDTHH:MM:SS)  or " ++ dq ++ "absent" ++ dq ++ " if not found.
    For relative times, calculate the actual time based on the current time. The current time is " ++ current_time ++ ".
    ")%string.

(** [prompts.extract_address_prompt] *)
Definition extract_address_prompt (address : string) : string :=
  ("
Extract the address from the user input and format it properly.

The address can be in various formats:
- Full street address (e.g., " ++ dq ++ "123 Main St, Anytown, USA 12345" ++ dq ++ ")
- Informal description (e.g., " ++ dq ++ "the corner of 5th and Elm" ++ dq ++ ")

Message: " ++ dq ++ address ++ dq ++ "

IMPORTANT: Return ONLY the address in this exact format: " ++ dq ++ "<House Number> <Street>, <City>, <State> <ZIP>, USA" ++ dq ++ "

If the user gives address sections separately or in different order, piece them together to form a complete address.
Do not modify the address components - just reorder them.

Return ONLY the formatted address string. Do not include:
- Explanatory text
- Quotes around the address
- Multiple lines
- Any other text

Example output: " ++ dq ++ "123 Main St, Dallas, TX 75201, USA" ++ dq ++ "
")%string.

(** *** Strings and dates *)

(** Text is kept as the bytes of its UTF-8 encoding.  The whitespace
    [str.strip()] removes is the characters for which [str.isspace()]
    holds: U+0009 to U+000D, U+001C to U+0020, and, in two and three
    bytes, U+0085, U+00A0, U+1680, U+2000 to U+200A, U+2028, U+2029,
    U+202F, U+205F and U+3000. *)
Definition is_space (c : ascii) : bool :=
  let n := nat_of_ascii c in
  (((9 <=? n) && (n <=? 13)) || ((28 <=? n) && (n <=? 32)))%nat.

Definition is_space2 (a b : ascii) : bool :=
  let x := nat_of_ascii a in
  let y := nat_of_ascii b in
  ((x =? 194) && ((y =? 133) || (y =? 160)))%nat.

Definition is_space3 (a b c : ascii) : bool :=
  let x := nat_of_ascii a in
  let y := nat_of_ascii b in
  let z := nat_of_ascii c in
  (((x =? 225) && (y =? 154) && (z =? 128))
   || ((x =? 226) && (y =? 128)
       && (((128 <=? z) && (z <=? 138)) || (z =? 168) || (z =? 169) || (z =? 175)))
   || ((x =? 226) && (y =? 129) && (z =? 159))
   || ((x =? 227) && (y =? 128) && (z =? 128)))%nat.

Fixpoint lstrip (s : string) : string :=
  match s with
  | EmptyString => EmptyString
  | String a rest1 =>
      if is_space a then lstrip rest1
      else
        match rest1 with
        | EmptyString => s
        | String b rest2 =>
            if is_space2 a b then lstrip rest2
            else
              match rest2 with
              | EmptyString => s
              | String c rest3 => if is_space3 a b c then lstrip rest3 else s
              end
        end
  end.

(** The text is whitespace from here to its end. *)
Fixpoint all_space (s : string) : bool :=
  match s with
  | EmptyString => true
  | String a rest1 =>
      if is_space a then all_space rest1
      else
        match rest1 with
        | EmptyString => false
        | String b rest2 =>
            if is_space2 a b then all_space rest2
            else
              match rest2 with
              | EmptyString => false
              | String c rest3 => is_space3 a b c && all_space rest3
              end
        end
  end.

Fixpoint rstrip (s : string) : string :=
  match s with
  | EmptyString => EmptyString
  | String c rest => if all_space s then EmptyString else String c (rstrip rest)
  end.

Definition strip (s : string) : string := rstrip (lstrip s).

(** A [datetime(year, month, day, hour, minute, second)]. *)
Record datetime : Type := mkDatetime {
  year : nat;
  month : nat;
  day : nat;
  hour : nat;
  minute : nat;
  second : nat
}.

Fixpoint digits (fuel n : nat) (acc : string) : string :=
  match fuel with
  | O => acc
  | S fuel =>
      let acc := String (ascii_of_nat (48 + n mod 10)) acc in
      if (n / 10 =? 0)%nat then acc else digits fuel (n / 10) acc
  end.

Fixpoint zeros (k : nat) (s : string) : string :=
  match k with
  | O => s
  | S k => String (ascii_of_nat 48) (zeros k s)
  end.

(** Decimal text of a number, padded with zeros to [width] digits. *)
Definition zero_padded (width n : nat) : string :=
  let text := digits (S n) n EmptyString in
  zeros (width - String.length text) text.

(** [dt.strftime("%Y-%m-%dT%H:%M:%S")] *)
Definition strftime (dt : datetime) : string :=
  (zero_padded 4 (year dt) ++ "-" ++ zero_padded 2 (month dt) ++ "-"
   ++ zero_padded 2 (day dt) ++ "T" ++ zero_padded 2 (hour dt) ++ ":"
   ++ zero_padded 2 (minute dt) ++ ":" ++ zero_padded 2 (second dt))%string.

(** *** The tables the tools touch *)

(** A row of [billing_info]. *)
Record BillingInfo : Type := mkBilling {
  billing_account_id : option string;
  current_balance : option float
}.

(** A row of [outages]. *)
Record Outage : Type := mkOutage {
  reference_number : string;
  outage_account_id : option string;
  outage_name : option string;
  nature : string;
  start_time : datetime;
  outage_address : option string;
  latitude : float;
  longitude : float;
  status : string;
  Scale : string
}.

(** What a tool call leaves behind: the [outages] table and the prompts the
    language model was sent, in order. *)
Record effects : Type := mkEffects {
  outages : list Outage;
  prompts : list string
}.

Section Environment.

(** [format(x, ".2f")] and [str(x)] of a float. *)
Variable format_2f : float -> string.
Variable float_str : float -> string.
(** The content of [llm.invoke(prompt)], or the exception it ends with. *)
Variable llm : string -> result string.
(** [validate_customer_address]: the coordinates when the address is
    complete, [None] for [(False, None)]. *)
Variable validate_customer_address : option string -> option (float * float).
(** [datetime.fromisoformat] and [str] of a datetime. *)
Variable fromisoformat : string -> option datetime.
Variable datetime_str : datetime -> string.
(** [str(uuid.uuid4())] *)
Variable uuid4 : string.
(** The [billing_info] table. *)
Variable billing : list BillingInfo.

(** [DatabaseManager.get_billing_by_customer_id] *)
Definition get_billing_by_customer_id (account_id : option string)
  : option BillingInfo :=
  match account_id with
  | Some _ => find (fun b => sql_eq (billing_account_id b) account_id) billing
  | None => find (fun b => match billing_account_id b with
                           | None => true
                           | Some _ => false
                           end) billing
  end.

(** [f"{x:.2f}"] for a value that may be [None]. *)
Definition format_money (x : option float) : result string :=
  match x with
  | Some x => Ok (format_2f x)
  | None =>
      Raise (TypeError "unsupported format string passed to NoneType.__format__")
  end.

(** [billing_info.current_balance] for a row that may be [None]. *)
Definition current_balance_of (b : option BillingInfo) : result (option float) :=
  match b with
  | Some b => Ok (current_balance b)
  | None =>
      Raise (AttributeError "'NoneType' object has no attribute 'current_balance'")
  end.

(** [get_bill_balance] *)
Definition get_bill_balance (state : UtilityAgentState) : result string :=
  let local_data := State.local_data state in
  if truthy_bool local_data then
    let account_id := State.account_id state in
    let customer_name := State.customer_name state in
    let billing_info := get_billing_by_customer_id account_id in
    bind (current_balance_of billing_info) (fun owed =>
    bind (format_money owed) (fun amount =>
    Ok ("Raw balance: $" ++ amount ++ "
Customer: " ++ fstr customer_name)%string))
  else if negb (truthy_bool local_data) then
    let balance := State.balance state in
    bind (format_money balance) (fun amount =>
    Ok ("Raw balance: $" ++ amount)%string)
  else Ok "No billing information found".

(** [get_payment_link] *)
Definition get_payment_link (state : UtilityAgentState) : result string :=
  let local_data := State.local_data state in
  let account_id := State.account_id state in
  if truthy_bool local_data then
    let billing_info := get_billing_by_customer_id account_id in
    bind (current_balance_of billing_info) (fun owed =>
    let payment_url :=
      ("https://pay.acmeutilities.com/pay/" ++ fstr account_id ++ "?amount="
       ++ fstr (option_map float_str owed))%string in
    bind (format_money owed) (fun amount =>
    Ok ("Payment link: " ++ payment_url ++ "
Amount due: $" ++ amount)%string))
  else if negb (truthy_bool local_data) then
    let balance := State.balance state in
    let payment_url :=
      ("https://pay.acmeutilities.com/pay/" ++ fstr account_id ++ "?amount="
       ++ fstr (option_map float_str balance))%string in
    bind (format_money balance) (fun amount =>
    Ok ("Payment link: " ++ payment_url ++ "
Amount due: $" ++ amount)%string)
  else Ok "No billing information found".

(** [enroll_paperless_billing] *)
Definition enroll_paperless_billing : result string :=
  Ok "Could not enroll in paperless billing. Please try again later.".

(** [llm.invoke(prompt).content.strip()], the prompt recorded. *)
Definition ask (prompt : string) (e : effects) : result string * effects :=
  (bind (llm prompt) (fun reply => Ok (strip reply)),
   {| outages := outages e; prompts := prompts e ++ [prompt] |}).

(** [DatabaseManager.create_outage] *)
Definition create_outage (o : Outage) (e : effects) : string * effects :=
  (reference_number o,
   {| outages := outages e ++ [o]; prompts := prompts e |}).

(** The fixed [datetime(2025, 7, 3, 8, 0, 0)] of [report_outage]. *)
Definition reference_now : datetime :=
  {| year := 2025; month := 7; day := 3; hour := 8; minute := 0; second := 0 |}.

(** [report_outage] from the address check on. *)
Definition report_at (start_time : string) (state : UtilityAgentState)
    (address_string : option string) (e : effects) : result string * effects :=
  let account_id := State.account_id state in
  let name := State.customer_name state in
  match validate_customer_address address_string with
  | None => (Ok "Please provide a valid address.", e)
  | Some (latitude, longitude) =>
      let current_time := strftime reference_now in
      let time_prompt := get_time_extraction_prompt start_time current_time in
      let '(extracted_time, e) := ask time_prompt e in
      match extracted_time with
      | Raise x => (Raise x, e)
      | Ok extracted_time =>
          if extracted_time =? "absent" then
            (Ok "Could not determine the outage start time. Please provide a clear time reference.", e)
          else
            match fromisoformat extracted_time with
            | None =>
                (Raise (ValueError ("Invalid isoformat string: '" ++ extracted_time
                                    ++ "'")%string), e)
            | Some start_time_dt =>
                let reference_number := ("OUT-" ++ uuid4)%string in
                let '(reference_number, e) :=
                  create_outage
                    {| reference_number := reference_number;
                       outage_account_id := account_id;
                       outage_name := name;
                       nature := "Water";
                       start_time := start_time_dt;
                       outage_address := address_string;
                       latitude := latitude;
                       longitude := longitude;
                       status := "Reported";
                       Scale := "medium" |} e in
                (Ok ("Reported at " ++ fstr address_string ++ ". Start time: "
                     ++ datetime_str start_time_dt ++ "
Reference number: " ++ reference_number)%string, e)
            end
      end
  end.

(** [report_outage]; [clock] is the time of the call, which the body
    never reads. *)
Definition report_outage (clock : datetime) (start_time : string)
    (state : UtilityAgentState) (address address_type : option string)
    (e : effects) : result string * effects :=
  let local_data := State.local_data state in
  let registered := sql_eq address_type (Some "registered") in
  match address with
  | Some address =>
      let prompt := extract_address_prompt address in
      let '(address_string, e) := ask prompt e in
      match address_string with
      | Raise x => (Raise x, e)
      | Ok address_string => report_at start_time state (Some address_string) e
      end
  | None =>
      if registered && truthy_bool local_data then
        report_at start_time state (State.registered_address state) e
      else if (registered && negb (truthy_bool local_data))
              || sql_eq address_type (Some "new") then
        (Ok "Please provide the address where the outage is occurring.", e)
      else
        (Ok "Do you want to use your registered address or a different address?", e)
  end.

End Environment.

(** *** States of the scenarios *)

(** A customer resolved through the local directory: [verify_customer]
    set [local_data], the account id and the name, and no balance. *)
Definition local_customer_state : UtilityAgentState :=
  {| messages := [HumanMessage "what's my balance"];
     verified_customer := Some true;
     phone_number := Some "5550000003";
     local_data := Some true;
     account_id := Some "ACC-3";
     registered_address := None;
     customer_name := Some "Cy Moss";
     balance := None;
     days_left := None;
     used := None;
     read_date := None;
     charge_amount := None |}.

(** A [billing_info] table with no row for account [ACC-3]. *)
Definition billing_without_acc3 : list BillingInfo :=
  [ {| billing_account_id := Some "ACC-1"; current_balance := None |} ].

(** The prompt that asks the model for the start time, with the current
    time it is told. *)
Definition fixed_time_prompt (start_time : string) : string :=
  get_time_extraction_prompt start_time "2025-07-03T08:00:00".

End Tools.

(* ====================================================================== *)
(** ** The verification status query (database.py) *)
(* ====================================================================== *)

Module Directory.
Import Verification.

(** The dict [check_phone_verification_status] returns; [details] holds the
    keys [verified_at], [session_id] and [verification_method], which only
    the verified answer carries. *)
Record status : Type := mkStatus {
  verified : bool;
  exists_in_db : bool;
  details : option (Z * option string * string);
  message : string
}.

(** [DatabaseManager.check_phone_verification_status] *)
Definition check_phone_verification_status (accounts : list Account) (p : string)
    (t : table) : status :=
  match get_customer_by_phone accounts (Some p) with
  | None =>
      {| verified := false; exists_in_db := false; details := None;
         message := "Phone number not found in database" |}
  | Some customer =>
      match latest (filter (active_for p) t) with
      | Some r =>
          {| verified := true; exists_in_db := true;
             details := Some (verified_at r, session_id r, verification_method r);
             message := "Phone number verified" |}
      | None =>
          {| verified := false; exists_in_db := true; details := None;
             message := "Phone number exists but not verified" |}
      end
  end.

(** The rows an earlier query leaves in place, in order. *)
Definition rows_of_other_numbers (p : string) (t : table) : table :=
  filter (fun r => negb (phone_number r =? p)) t.

End Directory.

(* ====================================================================== *)
(** ** ZIP codes and the outage status tool (tools.py, database.py) *)
(* ====================================================================== *)

(** Text is a sequence of bytes; the character classes below are those of
    the regular expressions on ASCII text.  On other text Python's [\d],
    [\w] and [\b] also take the digits and letters of other scripts, so
    the searches below stand for the code on ASCII text only. *)
Module Zip.
Import State Tools.

Definition is_digit (c : ascii) : bool :=
  let n := nat_of_ascii c in ((48 <=? n) && (n <=? 57))%nat.

(** [\w] *)
Definition is_word (c : ascii) : bool :=
  let n := nat_of_ascii c in
  (is_digit c || ((65 <=? n) && (n <=? 90)) || ((97 <=? n) && (n <=? 122))
   || (n =? 95))%nat.

Definition is_ascii (c : ascii) : bool := (nat_of_ascii c <? 128)%nat.

Fixpoint all_chars (f : ascii -> bool) (s : string) : bool :=
  match s with
  | EmptyString => true
  | String c rest => f c && all_chars f rest
  end.

Definition first_char (s : string) : option ascii :=
  match s with
  | EmptyString => None
  | String c _ => Some c
  end.

Definition word_at (c : option ascii) : bool :=
  match c with
  | Some c => is_word c
  | None => false
  end.

(** [\b] between the character before and the character after. *)
Definition boundary (before after : option ascii) : bool :=
  xorb (word_at before) (word_at after).

(** [\d{n}] at the head of [s]: the digits and the text after them. *)
Fixpoint take_digits (n : nat) (s : string) : option (string * string) :=
  match n with
  | O => Some (EmptyString, s)
  | S n =>
      match s with
      | EmptyString => None
      | String c rest =>
          if is_digit c then
            match take_digits n rest with
            | Some (ds, after) => Some (String c ds, after)
            | None => None
            end
          else None
      end
  end.

(** The last character of [s], or [fallback] when [s] is empty. *)
Fixpoint last_char (fallback : option ascii) (s : string) : option ascii :=
  match s with
  | EmptyString => fallback
  | String c rest => last_char (Some c) rest
  end.

(** The pattern [\b\d{5}(?:-\d{4})?\b] tried at one position; [before] is
    the character in front of it.  The optional group is tried first. *)
Definition zip_here (before : option ascii) (s : string) : option string :=
  if boundary before (first_char s) then
    match take_digits 5 s with
    | None => None
    | Some (five, after) =>
        let long :=
          match after with
          | String c after_dash =>
              if (nat_of_ascii c =? 45)%nat then
                match take_digits 4 after_dash with
                | Some (four, rest) =>
                    if boundary (last_char None four) (first_char rest)
                    then Some (five ++ String c four)%string
                    else None
                | None => None
                end
              else None
          | EmptyString => None
          end in
        match long with
        | Some z => Some z
        | None =>
            if boundary (last_char None five) (first_char after)
            then Some five
            else None
        end
    end
  else None.

(** [re.search]: the match at the leftmost position that has one. *)
Fixpoint zip_search (before : option ascii) (s : string) : option string :=
  match zip_here before s with
  | Some z => Some z
  | None =>
      match s with
      | EmptyString => None
      | String c rest => zip_search (Some c) rest
      end
  end.

(** [extract_zip_code] *)
Definition extract_zip_code (address : string) : option string :=
  zip_search None address.

(** [s] starts with [lit]: the text after it. *)
Fixpoint strip_prefix (lit s : string) : option string :=
  match lit with
  | EmptyString => Some s
  | String a lit' =>
      match s with
      | EmptyString => None
      | String b s' => if Ascii.eqb a b then strip_prefix lit' s' else None
      end
  end.

(** The pattern [\b<literal>\b] tried at one position. *)
Definition word_here (lit : string) (before : option ascii) (s : string) : bool :=
  match strip_prefix lit s with
  | Some rest =>
      boundary before (first_char s)
      && boundary (last_char before lit) (first_char rest)
  | None => false
  end.

(** [re.search(rf"\b{re.escape(zip_code)}\b", address)] as a truth value. *)
Fixpoint word_search (lit : string) (before : option ascii) (s : string) : bool :=
  word_here lit before s
  || match s with
     | EmptyString => false
     | String c rest => word_search lit (Some c) rest
     end.

Definition active_statuses : list string := ["In Progress"; "Accepted"; "Reported"].

(** [DatabaseManager.get_active_outages_by_zip_code] *)
Definition get_active_outages_by_zip_code (zip_code : string)
    (table : list Outage) : list Outage :=
  filter (fun o =>
            existsb (String.eqb (status o)) active_statuses
            && truthy_str (outage_address o)
            && match outage_address o with
               | Some a => word_search zip_code None a
               | None => false
               end) table.

(** The two answers of [check_outage_status] that carry a ZIP code. *)
Definition outages_message (count : nat) (zip_code : string) : string :=
  (zero_padded 0 count ++ " active outages reported in your area (zip code: "
   ++ zip_code ++ "). Service should be restored within 3 hours.")%string.

Definition no_outages_message (zip_code : string) : string :=
  ("There are no active outages reported in your area (zip code: "
   ++ zip_code ++ ").")%string.

Section Environment.

Variable llm : string -> result string.

(** [check_outage_status] from the ZIP extraction on. *)
Definition status_at (address_string : option string) (e : effects)
  : result string * effects :=
  match address_string with
  | None => (Raise (TypeError "expected string or bytes-like object, got 'NoneType'"), e)
  | Some address_string =>
      match extract_zip_code address_string with
      | None =>
          (Ok "Unable to extract zip code from the provided address. Please provide a valid address with zip code.", e)
      | Some zip_code =>
          let found := get_active_outages_by_zip_code zip_code (outages e) in
          if (0 <? length found)%nat
          then (Ok (outages_message (length found) zip_code), e)
          else (Ok (no_outages_message zip_code), e)
      end
  end.

(** [check_outage_status] *)
Definition check_outage_status (state : UtilityAgentState)
    (address address_type : option string) (e : effects)
  : result string * effects :=
  let local_data := State.local_data state in
  let registered := sql_eq address_type (Some "registered") in
  match address with
  | Some address =>
      let prompt := extract_address_prompt address in
      let '(address_string, e) := ask llm prompt e in
      match address_string with
      | Raise x => (Raise x, e)
      | Ok address_string => status_at (Some address_string) e
      end
  | None =>
      if registered && truthy_bool local_data then
        status_at (State.registered_address state) e
      else if (registered && negb (truthy_bool local_data))
              || sql_eq address_type (Some "new") then
        (Ok "Please provide the address where the outage is occurring.", e)
      else
        (Ok "Do you want to use your registered address or a different address?", e)
  end.

End Environment.

(** A ZIP code as the pattern writes it: five digits, or five digits, a
    dash and four digits. *)
Definition zip_shaped (z : string) : bool :=
  match take_digits 5 z with
  | Some (_, EmptyString) => true
  | Some (_, String c rest) =>
      (nat_of_ascii c =? 45)%nat
      && match take_digits 4 rest with
         | Some (_, EmptyString) => true
         | _ => false
         end
  | None => false
  end.

End Zip.

(* ====================================================================== *)
(** ** The phone verification tool (tools.py) *)
(* ====================================================================== *)

Module VerifyTool.
Import State.

(** [re.match(r"^\d{10}$", phone_number)] on ASCII text: ten digits, then
    the end of the text or one final newline.  (On other text the pattern
    also takes the decimal digits of other scripts.) *)
Definition ten_digits (phone_number : string) : bool :=
  match Zip.take_digits 10 phone_number with
  | Some (_, EmptyString) => true
  | Some (_, String c EmptyString) => (nat_of_ascii c =? 10)%nat
  | _ => false
  end.

Definition failed_text (phone_number : string) : string :=
  ("
âŒ **PHONE VERIFICATION FAILED**

ğŸ“± **Phone Number:** " ++ phone_number ++ "
ğŸ” **Status:** Verification failed
âš ï¸ **Access:** No access to Davidson Water services

**Verification Result:** âŒ NOT VERIFIED
**Next Steps:**
1. Verify the phone number is correct
2. Ensure the customer is registered with Davidson Water
3. Contact support if the issue persists")%string.

Definition error_text (phone_number : string) : string :=
  ("
âŒ **VERIFICATION ERROR**

ğŸ“± **Phone Number:** " ++ phone_number ++ "
ğŸ” **Error:** Unable to verify customer status
âš ï¸ **Access:** Verification status unknown

**Please try again or contact support if the issue persists.**")%string.

(** The field [{billing_info.current_balance:.2f if billing_info else
    'N/A'}] of the success text: everything after the colon is the format
    specification, which no value accepts. *)
Definition balance_field (billing_info : option Tools.BillingInfo) : result string :=
  match billing_info with
  | None =>
      Raise (AttributeError "'NoneType' object has no attribute 'current_balance'")
  | Some b =>
      match Tools.current_balance b with
      | None =>
          Raise (TypeError "unsupported format string passed to NoneType.__format__")
      | Some _ =>
          Raise (ValueError "Invalid format specifier '.2f if billing_info else 'N/A'' for object of type 'float'")
      end
  end.

(** The success answer: the customer is looked up again, then the text is
    formatted up to the balance field. *)
Definition success_text (accounts : list Verification.Account)
    (billing : list Tools.BillingInfo) (phone_number : string) : result string :=
  match Verification.get_customer_by_phone accounts (Some phone_number) with
  | None =>
      Raise (AttributeError "'NoneType' object has no attribute 'account_id'")
  | Some customer =>
      let billing_info :=
        Tools.get_billing_by_customer_id billing
          (Some (Verification.account_id customer)) in
      balance_field billing_info
  end.

(** The tool [verify_phone_number]: its answer and the verification table
    it leaves.  [now] is CURRENT_TIMESTAMP. *)
Definition verify_phone_number (accounts : list Verification.Account)
    (billing : list Tools.BillingInfo) (phone_number : string)
    (state : UtilityAgentState) (now : Z) (t : Verification.table)
  : string * Verification.table :=
  if negb (truthy_str (Some phone_number)) then
    ("Please provide a phone number to verify.", t)
  else if negb (ten_digits phone_number) then
    ("Please provide a valid 10-digit phone number.", t)
  else
    let '(verification_success, t) :=
      Verification.verify_phone_number accounts phone_number None now t in
    if verification_success then
      match success_text accounts billing phone_number with
      | Ok text => (text, t)
      | Raise _ => (error_text phone_number, t)        (* except Exception *)
      end
    else (failed_text phone_number, t).

End VerifyTool.

(* ====================================================================== *)
(** ** The meter reading and usage tools (tools.py) *)
(* ====================================================================== *)

Module Meter.
Import State.

(** The columns of [readings] the tools read. *)
Record Reading : Type := mkReading {
  reading_account_id : option string;
  reading_value : option float;
  read_date : option Tools.datetime;
  usage : option float
}.

(** The answer of both tools when no verification is active. *)
Definition required_text : string :=
  ("
ğŸ“± **PHONE VERIFICATION REQUIRED**

âŒ **Status:** No active phone verification found

**To proceed, please:**
1. Go to Settings (gear icon)
2. Enter your phone number
3. Click " ++ Tools.dq ++ "Save" ++ Tools.dq ++ " to verify
4. Return here to continue

**Note:** Phone number verification is required to access Davidson Water services.")%string.

(** [rate_per_gallon = 0.0125] *)
Definition rate_per_gallon : float := 0x1.999999999999ap-7%float.

Section Environment.

(** [format(x, ".1f")], [format(x, ".2f")], [format(x, ".4f")] and [str(x)]
    of a float, and [d.strftime("%B %d, %Y")]. *)
Variable format_1f : float -> string.
Variable format_2f : float -> string.
Variable format_4f : float -> string.
Variable float_str : float -> string.
Variable strftime_long : Tools.datetime -> string.
(** The [accounts] and [readings] tables. *)
Variable accounts : list Verification.Account.
Variable readings : list Reading.

(** [DatabaseManager.get_meter_readings] *)
Definition get_meter_readings (account_id : string) : option Reading :=
  find (fun r => sql_eq (reading_account_id r) (Some account_id)) readings.

(** [reading.usage] as the left operand of [*] or [/]; [operands] names
    the operator and the type of the right operand. *)
Definition usage_operand (reading : Reading) (operands : string) : result float :=
  match usage reading with
  | Some u => Ok u
  | None =>
      Raise (TypeError ("unsupported operand type(s) for " ++ operands)%string)
  end.

(** [reading.read_date.strftime("%B %d, %Y")] *)
Definition read_date_text (reading : Reading) : result string :=
  match read_date reading with
  | Some d => Ok (strftime_long d)
  | None => Raise (AttributeError "'NoneType' object has no attribute 'strftime'")
  end.

(** [get_meter_reading] once the verified phone number is known. *)
Definition meter_reading_for (phone_number : string) : result string :=
  match Verification.get_customer_by_phone accounts (Some phone_number) with
  | None =>
      Ok ("No customer found with phone number: " ++ phone_number
          ++ ". Please check the number and try again.")%string
  | Some customer =>
      match get_meter_readings (Verification.account_id customer) with
      | None =>
          Ok ("There is no water consumption data available for "
              ++ fstr (Verification.name customer)
              ++ " as of now. Please check back later for updated meter readings.")%string
      | Some reading =>
          bind (usage_operand reading "*: 'NoneType' and 'float'") (fun used =>
          let cost := PrimFloat.mul used rate_per_gallon in
          bind (read_date_text reading) (fun date =>
          Ok ("Latest meter reading for " ++ fstr (Verification.name customer) ++ ":
Account: " ++ Verification.account_id customer ++ "
Reading: " ++ fstr (option_map float_str (reading_value reading)) ++ " gallons
Reading date: " ++ date ++ "
Rate: $" ++ format_4f rate_per_gallon ++ " per gallon
Estimated cost: $" ++ format_2f cost)%string))
      end
  end.

(** [get_meter_reading] *)
Definition get_meter_reading (state : UtilityAgentState) (t : Verification.table)
  : result string :=
  match Verification.get_active_phone_verification t with
  | None => Ok required_text
  | Some active_verification =>
      meter_reading_for (Verification.v_phone_number active_verification)
  end.

(** [analyze_usage_patterns] once the verified phone number is known. *)
Definition usage_analysis_for (phone_number : string) : result string :=
  match Verification.get_customer_by_phone accounts (Some phone_number) with
  | None =>
      Ok ("No customer found with phone number: " ++ phone_number
          ++ ". Please check the number and try again.")%string
  | Some customer =>
      match get_meter_readings (Verification.account_id customer) with
      | Some reading =>
          bind (usage_operand reading "/: 'NoneType' and 'int'") (fun used =>
          let daily := PrimFloat.div used 30%float in
          let weekly := PrimFloat.div used 4%float in
          let monthly := used in
          Ok ("Usage analysis for " ++ fstr (Verification.name customer) ++ ":
Account: " ++ Verification.account_id customer ++ "
Average daily usage: " ++ format_1f daily ++ " gallons
Average weekly usage: " ++ format_1f weekly ++ " gallons
Monthly usage: " ++ format_1f monthly ++ " gallons
Peak usage hours: " ++ "6PM-10PM" ++ "
Trend: " ++ "increasing" ++ "
Recommendation: Consider adjusting usage during peak periods to reduce costs.")%string)
      | None =>
          Ok ("There is no water consumption data available for "
              ++ fstr (Verification.name customer)
              ++ " as of now. Please check back later for usage analysis.")%string
      end
  end.

(** [analyze_usage_patterns] *)
Definition analyze_usage_patterns (state : UtilityAgentState)
    (t : Verification.table) : result string :=
  match Verification.get_active_phone_verification t with
  | None => Ok required_text
  | Some active_verification =>
      usage_analysis_for (Verification.v_phone_number active_verification)
  end.

End Environment.

End Meter.

(* ====================================================================== *)
(** ** The chat and reset routes (routes/api.py) *)
(* ====================================================================== *)

Module Routes.
Import State Agent.

(** What a route hands to the web framework. *)
Inductive http : Type :=
| Respond (response : string) (audio_url : option string)
| HTTPException (status_code : Z) (detail : string).

Section Chat.

Variable graph_stream :
  graph_input -> option string -> list checkpoint_row ->
  result (list UtilityAgentState) * list checkpoint_row.
(** Whether an exception of the turn is an instance of [sqlite3.Error]. *)
Variable is_sqlite_error : exn -> bool.
(** The text-to-speech branch: the audio file it writes, or its exception. *)
Variable text_to_speech : string -> result string.

(** [str(ve)] *)
Definition exn_text (e : exn) : string :=
  match e with
  | ValueError m | TypeError m | AttributeError m | IndexError m
  | UnboundLocalError m | RuntimeFailure m => m
  end.

(** The handlers of the inner [try] of [chat]. *)
Definition chat_handlers (e : exn) : http :=
  match e with
  | ValueError _ => HTTPException 400 (exn_text e)
  | _ =>
      if is_sqlite_error e
      then HTTPException 500 "Database error occurred. Please try again."
      else HTTPException 500 "An unexpected error occurred. Please try again."
  end.

(** The body of the outer [try] of [chat]: an [HTTPException] here is one
    raised inside it. *)
Definition chat_body (message phone_number : string) (session_id : option string)
    (use_tts : bool) (now : datetime) (w : world) : http * world :=
  if negb (truthy_str (Some message)) then
    (HTTPException 400 "No message provided", w)
  else if negb (truthy_str (Some phone_number)) then
    (HTTPException 400 "No phone number provided", w)
  else
    let '(response, w) :=
      process_message graph_stream (Some message) (Some phone_number)
        session_id now w in
    match response with
    | Raise e => (chat_handlers e, w)
    | Ok response =>
        if use_tts then
          match text_to_speech response with
          | Ok file => (Respond response (Some ("/api/audio/" ++ file)%string), w)
          | Raise e => (chat_handlers e, w)
          end
        else (Respond response None, w)
    end.

(** [chat]: the outer [except Exception] catches every [HTTPException]
    raised in the body, which is an [Exception] too. *)
Definition chat (message phone_number : string) (session_id : option string)
    (use_tts : bool) (now : datetime) (w : world) : http * world :=
  match chat_body message phone_number session_id use_tts now w with
  | (Respond response audio_url, w) => (Respond response audio_url, w)
  | (HTTPException _ _, w) =>
      (HTTPException 500 "An unexpected error occurred. Please try again.", w)
  end.

End Chat.

(** [clear_data]: the thread's checkpoints and, when a phone number came
    with the request, the verification rows of the session. *)
Definition clear_data (phone_number : string) (session_id : option string)
    (w : world) (t : Verification.table) : http * world * Verification.table :=
  let w := clear_memory session_id w in
  let t :=
    if truthy_str (Some phone_number)
    then snd (Verification.clear_phone_verifications_by_session session_id t)
    else t in
  (Respond "Chat state reset successfully" None, w, t).

End Routes.

(* ====================================================================== *)
(** ** Shapes the properties below speak of *)
(* ====================================================================== *)

Module Shapes.
Import State Agent.

Definition is_some {A : Type} (o : option A) : bool :=
  match o with
  | Some _ => true
  | None => false
  end.

(** An update of [verify_customer] that keeps the identity and the two
    sources of data apart: a verified customer has an account id and a name
    key; the usage snapshot is there exactly when the data is not local;
    the registered address is there exactly when it is. *)
Definition update_consistent (u : update) : bool :=
  let verified := truthy_bool (u_verified_customer u) in
  Bool.eqb verified (is_some (u_account_id u))
  && Bool.eqb verified (is_some (u_customer_name u))
  && Bool.eqb verified (is_some (u_local_data u))
  && Bool.eqb (is_some (u_balance u)) (match u_local_data u with Some false => true | _ => false end)
  && Bool.eqb (is_some (u_days_left u)) (is_some (u_balance u))
  && Bool.eqb (is_some (u_used u)) (is_some (u_balance u))
  && Bool.eqb (is_some (u_read_date u)) (is_some (u_balance u))
  && Bool.eqb (is_some (u_charge_amount u)) (is_some (u_balance u))
  && Bool.eqb (is_some (u_registered_address u))
              (match u_local_data u with Some true => true | _ => false end).

(** The address [report_outage] goes on with after its first branch: the
    model's reading of the address argument, or the registered address of a
    customer with local data; [None] when the tool stops there (the model
    failed, or the tool asks for the address). *)
Definition address_for_report (llm : string -> result string)
    (state : UtilityAgentState) (address address_type : option string)
  : option (option string) :=
  match address with
  | Some a =>
      match llm (Tools.extract_address_prompt a) with
      | Ok reply => Some (Some (Tools.strip reply))
      | Raise _ => None
      end
  | None =>
      if sql_eq address_type (Some "registered")
         && truthy_bool (State.local_data state)
      then Some (State.registered_address state)
      else None
  end.

(** Every stored outage address is ASCII text. *)
Definition ascii_addresses (table : list Tools.Outage) : bool :=
  forallb (fun o => match Tools.outage_address o with
                    | Some a => Zip.all_chars Zip.is_ascii a
                    | None => true
                    end) table.

(** The last element of a list. *)
Definition last_of {A : Type} (l : list A) : option A := hd_error (rev l).

(** The TTL rows of one thread. *)
Definition ttl_rows_of (thread : option string) (rows : list ttl_row) : list ttl_row :=
  filter (fun r => sql_eq (ttl_thread_id r) thread) rows.

Definition ttl_rows_of_others (thread : option string) (rows : list ttl_row)
  : list ttl_row :=
  filter (fun r => negb (sql_eq (ttl_thread_id r) thread)) rows.

(** The checkpoint rows of one thread. *)
Definition checkpoints_of (thread : string) (rows : list checkpoint_row)
  : list checkpoint_row :=
  filter (fun c => thread_id c =? thread) rows.

(** *** Worlds and collaborators of the scenarios *)

(** A graph that answers every message with one assistant message and
    stores the resulting state for the thread. *)
Definition answering_graph (input : graph_input) (thread : option string)
    (saved : list checkpoint_row)
  : result (list UtilityAgentState) * list checkpoint_row :=
  let state :=
    {| messages := in_messages input ++ [AIMessage "Hello, how can I help?" []];
       verified_customer := Some true;
       phone_number := in_phone_number input;
       local_data := None;
       account_id := None;
       registered_address := None;
       customer_name := None;
       balance := None;
       days_left := None;
       used := None;
       read_date := None;
       charge_amount := None |} in
  (Ok [state],
   match thread with
   | Some th => saved ++ [ {| thread_id := th; checkpoint := state |} ]
   | None => saved
   end).

(** A graph whose model call fails. *)
Definition failing_graph (input : graph_input) (thread : option string)
    (saved : list checkpoint_row)
  : result (list UtilityAgentState) * list checkpoint_row :=
  (Raise (RuntimeFailure "model unreachable"), saved).

Definition empty_world : world :=
  {| checkpoints := []; ttl := []; invocations := [] |}.

(** A thread whose TTL rows are exactly 45 minutes old, NULL and unreadable. *)
Definition boundary_world (now : datetime) : world :=
  {| checkpoints := [ {| thread_id := "thread-45"; checkpoint := empty_state |} ];
     ttl := [ {| ttl_thread_id := Some "thread-45";
                 last_message_time := Some (IsoFormat (now - 45 * 60 * 1000000)%Z) |};
              {| ttl_thread_id := Some "thread-45"; last_message_time := None |};
              {| ttl_thread_id := Some "thread-45";
                 last_message_time := Some (NotIso "yesterday") |} ];
     invocations := [] |}.

(** A model that extracts one address and one start time. *)
Definition sample_llm (prompt : string) : result string :=
  if prompt =? Tools.extract_address_prompt "12 oak st dallas 75201"
  then Ok " 12 Oak St, Dallas, TX 75201, USA "
  else Ok "2025-07-03T07:00:00".

(** A second run of the model, which words the same address differently. *)
Definition status_llm (prompt : string) : result string :=
  Ok "Oak Street 12, 75201 Dallas".

(** A validator that accepts every address. *)
Definition sample_validator (address : option string) : option (float * float) :=
  Some (32.75%float, (-96.75)%float).

Definition sample_fromisoformat (text : string) : option Tools.datetime :=
  Some {| Tools.year := 2025; Tools.month := 7; Tools.day := 3;
          Tools.hour := 7; Tools.minute := 0; Tools.second := 0 |}.

Definition no_effects : Tools.effects :=
  {| Tools.outages := []; Tools.prompts := [] |}.

(** A [billing_info] table with a balance for account [ACC-3]. *)
Definition sample_billing : list Tools.BillingInfo :=
  [ {| Tools.billing_account_id := Some "ACC-3";
       Tools.current_balance := Some 42.5%float |} ].

(** A MyUsage service that answers with a snapshot. *)
Definition usage_available (account_id : string) : option usage :=
  Some {| usage_name := Some "Ada Park";
          usage_balance := 42.5%float;
          usage_days_left := 12;
          usage_used := 3100%float;
          usage_read_date := Some "2025-07-01";
          usage_charge_amount := 38.75%float |}.

End Shapes.

(* ====================================================================== *)
(** ** Properties of the verification table *)
(* ====================================================================== *)

Section VerificationFacts.
Import Verification.

Lemma active_filter_map_off (f : row -> bool) (t : table) :
  length (filter is_active
            (map (fun r => if f r
                           then {| phone_number := phone_number r;
                                   row_account_id := row_account_id r;
                                   verified_at := verified_at r;
                                   session_id := session_id r;
                                   verification_method := verification_method r;
                                   is_active := false |}
                           else r) t))
  <= length (filter is_active t).
Proof.
  induction t as [|r t IH]; simpl; [lia|].
  destruct (f r); simpl.
  - destruct (is_active r); simpl; lia.
  - destruct (is_active r); simpl; lia.
Qed.

Lemma active_filter_filter (q : row -> bool) (t : table) :
  length (filter is_active (filter q t)) <= length (filter is_active t).
Proof.
  induction t as [|r t IH]; simpl; [lia|].
  destruct (q r); simpl; destruct (is_active r); simpl; lia.
Qed.

Lemma deactivate_all_none (t : table) :
  filter is_active
    (map (fun r => if is_active r
                   then {| phone_number := phone_number r;
                           row_account_id := row_account_id r;
                           verified_at := verified_at r;
                           session_id := session_id r;
                           verification_method := verification_method r;
                           is_active := false |}
                   else r) t) = [].
Proof.
  induction t as [|r t IH]; simpl; [reflexivity|].
  destruct (is_active r) eqn:E; simpl; [|rewrite E]; exact IH.
Qed.

(** Every writer of the table keeps at most one active row. *)
Lemma step_keeps_single (t : table) (o : op) :
  active_count t <= 1 -> active_count (step t o) <= 1.
Proof.
  unfold active_count. intros H. destruct o as [accs p sid now|accs p s now|p|sid|]; simpl.
  - unfold verify_phone_number.
    destruct (get_customer_by_phone accs (Some p)); simpl; [|exact H].
    destruct (existsb (active_for p) t); simpl; [exact H|lia].
  - unfold mcp_verify_phone_number.
    destruct (get_customer_by_phone accs (Some p)); [|exact H].
    rewrite filter_app, deactivate_all_none. simpl. lia.
  - pose proof (active_filter_map_off (fun r => phone_number r =? p) t). lia.
  - pose proof (active_filter_filter (fun r => negb (sql_eq (session_id r) sid)) t). lia.
  - lia.
Qed.

Lemma fold_keeps_single (history : list op) (t : table) :
  active_count t <= 1 -> active_count (fold_left step history t) <= 1.
Proof.
  revert t. induction history as [|o history IH]; intros t H; simpl; [exact H|].
  apply IH, step_keeps_single, H.
Qed.

Lemma run_single_active (history : list op) : active_count (run history) <= 1.
Proof. apply fold_keeps_single. unfold active_count. simpl. lia. Qed.

(** With at most one active row, an active row of [p] is the active row. *)
Lemma single_active_is (p : string) (t : table) :
  active_count t <= 1 ->
  existsb (active_for p) t = true ->
  exists r, filter is_active t = [r] /\ phone_number r = p /\ In r t.
Proof.
  unfold active_count. intros Hle Hex.
  apply existsb_exists in Hex. destruct Hex as [r [Hin Hact]].
  unfold active_for in Hact. apply andb_true_iff in Hact. destruct Hact as [Hp Ha].
  apply String.eqb_eq in Hp.
  assert (Hf : In r (filter is_active t)) by (apply filter_In; split; assumption).
  destruct (filter is_active t) as [|r1 [|r2 rest]] eqn:E.
  - destruct Hf.
  - destruct Hf as [->|[]]. exists r. repeat split; assumption.
  - simpl in Hle. lia.
Qed.

(** What a successful verification leaves, whatever was verified before. *)
Lemma verify_outcome (accs : list Account) (p : string) (sid : option string)
    (now : Z) (t t' : table) :
  active_count t <= 1 ->
  verify_phone_number accs p sid now t = (true, t') ->
  exists r,
    filter is_active t' = [r] /\ phone_number r = p /\ In r t' /\
    existsb (active_for p) t' = true /\
    (existsb (active_for p) t = true -> t' = t) /\
    (existsb (active_for p) t = false -> t' = [r]).
Proof.
  intros Hle. unfold verify_phone_number.
  destruct (get_customer_by_phone accs (Some p)) as [customer|]; [|discriminate].
  destruct (existsb (active_for p) t) eqn:Hex; intros Heq; inversion Heq; subst t'; clear Heq.
  - destruct (single_active_is p t Hle Hex) as [r [Hf [Hp Hin]]].
    exists r. repeat split; try assumption; try reflexivity. discriminate.
  - eexists. simpl. repeat split; try reflexivity.
    + left. reflexivity.
    + unfold active_for. simpl. rewrite String.eqb_refl. reflexivity.
    + discriminate.
Qed.

End VerificationFacts.

(** C3.  After any successful [verify_phone_number], whatever sequence of
    verifications, deactivations and clears ran before, the table holds
    exactly one active row, it is a row of the number just verified,
    [get_active_phone_verification] returns it, and when the number was not
    already active the call deleted every earlier row and left only the
    inserted one. *)
Theorem verify_leaves_single_active_record :
  forall (history : list Verification.op) (accs : list Verification.Account)
         (p : string) (sid : option string) (now : Z) (t' : Verification.table),
    Verification.verify_phone_number accs p sid now (Verification.run history)
      = (true, t') ->
    Verification.active_count t' = 1 /\
    exists r,
      In r t' /\
      Verification.phone_number r = p /\
      Verification.is_active r = true /\
      Verification.get_active_phone_verification t'
        = Some (Verification.to_dict r) /\
      (existsb (Verification.active_for p) (Verification.run history) = false ->
       t' = [r]).
Proof.
  intros history accs p sid now t' H.
  destruct (verify_outcome accs p sid now _ t' (run_single_active history) H)
    as [r [Hf [Hp [Hin [_ [_ Hnew]]]]]].
  split.
  - unfold Verification.active_count. rewrite Hf. reflexivity.
  - exists r. repeat split; try assumption.
    + assert (Hr : In r (filter Verification.is_active t'))
        by (rewrite Hf; left; reflexivity).
      apply filter_In in Hr. tauto.
    + unfold Verification.get_active_phone_verification. rewrite Hf. reflexivity.
Qed.

Lemma verify_leaves_single_active_record_witness :
  Verification.verify_phone_number Verification.sample_accounts "5550000003"
    (Some "s3") 400 (Verification.run Verification.sample_history)
    = (true, [Verification.sample_row]) /\
  Verification.active_count [Verification.sample_row] = 1.
Proof.
  assert (H : Verification.verify_phone_number Verification.sample_accounts
                "5550000003" (Some "s3") 400
                (Verification.run Verification.sample_history)
              = (true, [Verification.sample_row])) by reflexivity.
  split; [exact H|].
  exact (proj1 (verify_leaves_single_active_record _ _ _ _ _ _ H)).
Defined.

(** C5.  Verifying the same number twice in a row succeeds both times; the
    second call returns the table unchanged, and
    [get_active_phone_verification] returns the same record, of that number,
    after each call. *)
Theorem verify_twice_is_idempotent :
  forall (history : list Verification.op) (accs : list Verification.Account)
         (p : string) (sid sid' : option string) (now now' : Z)
         (t1 : Verification.table),
    Verification.verify_phone_number accs p sid now (Verification.run history)
      = (true, t1) ->
    Verification.verify_phone_number accs p sid' now' t1 = (true, t1) /\
    exists v,
      Verification.v_phone_number v = p /\
      Verification.get_active_phone_verification t1 = Some v /\
      Verification.get_active_phone_verification
        (snd (Verification.verify_phone_number accs p sid' now' t1)) = Some v.
Proof.
  intros history accs p sid sid' now now' t1 H.
  destruct (verify_outcome accs p sid now _ t1 (run_single_active history) H)
    as [r [Hf [Hp [_ [Hex _]]]]].
  assert (H2 : Verification.verify_phone_number accs p sid' now' t1 = (true, t1)).
  { unfold Verification.verify_phone_number in *.
    destruct (Verification.get_customer_by_phone accs (Some p)); [|discriminate].
    rewrite Hex. reflexivity. }
  split; [exact H2|].
  exists (Verification.to_dict r). rewrite H2. simpl.
  unfold Verification.get_active_phone_verification. rewrite Hf. simpl.
  repeat split. exact Hp.
Qed.

Lemma verify_twice_is_idempotent_witness :
  Verification.verify_phone_number Verification.sample_accounts "5550000003"
    (Some "s3") 400 (Verification.run Verification.sample_history)
    = (true, [Verification.sample_row]) /\
  Verification.verify_phone_number Verification.sample_accounts "5550000003"
    (Some "s4") 500 [Verification.sample_row]
    = (true, [Verification.sample_row]).
Proof.
  assert (H : Verification.verify_phone_number Verification.sample_accounts
                "5550000003" (Some "s3") 400
                (Verification.run Verification.sample_history)
              = (true, [Verification.sample_row])) by reflexivity.
  split; [exact H|].
  exact (proj1 (verify_twice_is_idempotent _ _ _ _ (Some "s4") _ 500 _ H)).
Defined.

(* ====================================================================== *)
(** ** Properties of the reaper *)
(* ====================================================================== *)

Section ReaperFacts.
Import State Agent.

Lemma filter_twice {A : Type} (f g : A -> bool) (l : list A) :
  filter f (filter g l) = filter (fun x => g x && f x) l.
Proof.
  induction l as [|x l IH]; simpl; [reflexivity|].
  destruct (g x); simpl; [destruct (f x)|]; rewrite IH; reflexivity.
Qed.

Lemma stale_row_step (cutoff : datetime) (s : sweep) (r : ttl_row) :
  sweep_row cutoff s r =
  if stale_row cutoff r
  then {| sw_world := clear_memory (ttl_thread_id r) (sw_world s);
          cleared := S (cleared s);
          clear_calls := clear_calls s ++ [ttl_thread_id r] |}
  else s.
Proof.
  unfold sweep_row, stale_row.
  destruct (last_message_time r) as [[t|bad]|]; simpl; reflexivity.
Qed.

Lemma sweep_fold (cutoff : datetime) (rows : list ttl_row) (s : sweep) :
  let s' := fold_left (sweep_row cutoff) rows s in
  checkpoints (sw_world s')
    = filter (survives cutoff rows) (checkpoints (sw_world s)) /\
  clear_calls s' = clear_calls s ++ map ttl_thread_id (filter (stale_row cutoff) rows) /\
  cleared s' = cleared s + length (filter (stale_row cutoff) rows) /\
  ttl (sw_world s') = ttl (sw_world s) /\
  invocations (sw_world s') = invocations (sw_world s).
Proof.
  revert s. induction rows as [|r rows IH]; intros s; simpl.
  - repeat split.
    + symmetry. unfold survives. simpl.
      induction (checkpoints (sw_world s)) as [|c l IHl]; simpl; [reflexivity|].
      f_equal. exact IHl.
    + rewrite app_nil_r. reflexivity.
    + lia.
  - specialize (IH (sweep_row cutoff s r)). simpl in IH.
    destruct IH as [Hc [Hl [Hn [Ht Hi]]]].
    rewrite Hc, Hl, Hn, Ht, Hi. rewrite stale_row_step.
    destruct (stale_row cutoff r) eqn:E; simpl.
    + repeat split.
      * rewrite filter_twice. apply filter_ext. intros c.
        unfold survives. simpl. rewrite E. simpl.
        rewrite negb_orb. reflexivity.
      * rewrite <- app_assoc. reflexivity.
      * lia.
    + repeat split.
      apply filter_ext. intros c. unfold survives. simpl. rewrite E. reflexivity.
Qed.

End ReaperFacts.

(** C7.  One sweep calls [clear_memory] on exactly the threads whose TTL
    record is older than 45 minutes and deletes exactly their checkpoints;
    with records at now-46min and now-10min it is called on the first thread
    only and every checkpoint of the second thread is still there. *)
Theorem reaper_clears_exactly_stale_threads :
  (forall (now : Agent.datetime) (w : Agent.world),
      let s := Agent.clear_old_checkpoints now w in
      let cutoff := (now - Agent.timedelta_minutes 45)%Z in
      Agent.clear_calls s
        = map Agent.ttl_thread_id (filter (Agent.stale_row cutoff) (Agent.ttl w)) /\
      Agent.cleared s = length (Agent.clear_calls s) /\
      Agent.checkpoints (Agent.sw_world s)
        = filter (Agent.survives cutoff (Agent.ttl w)) (Agent.checkpoints w)) /\
  (forall (now : Agent.datetime) (cps : list Agent.checkpoint_row)
          (runs : list (Agent.graph_input * option string)),
      let s := Agent.clear_old_checkpoints now (Agent.two_thread_world now cps runs) in
      Agent.clear_calls s = [Some "thread-46"] /\
      Agent.cleared s = 1 /\
      Agent.checkpoints (Agent.sw_world s)
        = filter (fun c => negb (Agent.thread_id c =? "thread-46")) cps /\
      filter (fun c => Agent.thread_id c =? "thread-10")
             (Agent.checkpoints (Agent.sw_world s))
        = filter (fun c => Agent.thread_id c =? "thread-10") cps).
Proof.
  split.
  - intros now w s cutoff. subst s. unfold Agent.clear_old_checkpoints. fold cutoff.
    destruct (sweep_fold cutoff (Agent.ttl w)
                {| Agent.sw_world := w; Agent.cleared := 0; Agent.clear_calls := [] |})
      as [Hc [Hl [Hn _]]].
    simpl in *. rewrite Hl, Hn, Hc, length_map. repeat split.
  - intros now cps runs s. subst s.
    unfold Agent.clear_old_checkpoints, Agent.two_thread_world, Agent.timedelta_minutes.
    simpl. unfold Agent.sweep_row. simpl.
    assert (E1 : (now - 2760000000 <? now - 2700000000)%Z = true)
      by (apply Z.ltb_lt; lia).
    assert (E2 : (now - 600000000 <? now - 2700000000)%Z = false)
      by (apply Z.ltb_ge; lia).
    rewrite E1. simpl. rewrite E2. simpl.
    repeat split.
    rewrite filter_twice. apply filter_ext. intros c.
    destruct (Agent.thread_id c =? "thread-46") eqn:E46; simpl; [|reflexivity].
    apply String.eqb_eq in E46. rewrite E46. reflexivity.
Qed.

(* ====================================================================== *)
(** ** Properties of the graph nodes and of the turn entry point *)
(* ====================================================================== *)

(** Whatever the lookups answer, [verify_customer] either hands over to
    [chatbot] or fails on a missing usage snapshot. *)
Lemma verify_customer_cases (system_prompt : string)
    (my_alerts : option string -> option string)
    (my_usage : string -> option Agent.usage)
    (accounts : list Verification.Account) (state : State.UtilityAgentState) :
  (exists upd,
      Agent.verify_customer system_prompt my_alerts my_usage accounts state
        = Ok (State.Command "chatbot" (Some upd))) \/
  (exists aid,
      my_alerts (State.phone_number state) = Some aid /\
      aid <> EmptyString /\
      my_usage aid = None /\
      Agent.verify_customer system_prompt my_alerts my_usage accounts state
        = Raise (TypeError "'NoneType' object is not subscriptable")).
Proof.
  unfold Agent.verify_customer, Agent.verify_local.
  destruct (my_alerts (State.phone_number state)) as [aid|] eqn:Ea.
  - simpl. destruct (aid =? EmptyString) eqn:Ee; simpl.
    + left. destruct (Agent.lookup_local accounts (State.phone_number state));
        eexists; reflexivity.
    + destruct (my_usage aid) eqn:Eu.
      * left. eexists. reflexivity.
      * right. exists aid. repeat split; try assumption.
        apply String.eqb_neq. exact Ee.
  - left. destruct (Agent.lookup_local accounts (State.phone_number state));
      eexists; reflexivity.
Qed.

(** [chatbot] routes on the flag as it was when the node started: the
    phone number plays no part in the choice. *)
Lemma chatbot_routes_on_initial_flag
    (llm : list State.message -> result State.message)
    (state : State.UtilityAgentState) :
  fst (Agent.chatbot llm state)
  = if truthy_bool (State.verified_customer state)
    then bind (llm (State.messages state))
           (fun reply => Ok (State.MessagesUpdate [reply]))
    else Ok (State.Command "verify_customer" None).
Proof.
  unfold Agent.chatbot.
  destruct (truthy_bool (State.verified_customer state)); simpl; [reflexivity|].
  reflexivity.
Qed.

(** C1.  On a state that is not verified, [chatbot] returns
    [Command(goto="verify_customer")] and never calls the model, also when
    the state carries a phone number: the assignment to
    [state["verified_customer"]] does not reach the local variable the
    second test reads. *)
Theorem chatbot_unverified_with_phone_goes_to_verify :
  forall (llm : list State.message -> result State.message)
         (history : list State.message),
    fst (Agent.chatbot llm
           (Agent.unverified_state (Some false) (Some "5551234567") history))
      = Ok (State.Command "verify_customer" None) /\
    fst (Agent.chatbot llm
           (Agent.unverified_state None (Some "5551234567") history))
      = Ok (State.Command "verify_customer" None) /\
    State.verified_customer
      (snd (Agent.chatbot llm
              (Agent.unverified_state (Some false) (Some "5551234567") history)))
      = Some true.
Proof. intros llm history. repeat split. Qed.

(** C6.  When MyAlerts resolves the phone number to an account and MyUsage
    returns [None], [verify_customer] raises [TypeError] on [data['name']]
    and hands over to no node; the local directory is not tried. *)
Theorem verify_customer_raises_without_usage :
  forall (system_prompt : string) (accounts : list Verification.Account)
         (history : list State.message) (verified : option bool),
    Agent.verify_customer system_prompt Agent.alerts_finds_account
      Agent.usage_unavailable accounts
      (Agent.unverified_state verified (Some "5551234567") history)
    = Raise (TypeError "'NoneType' object is not subscriptable").
Proof. intros. reflexivity. Qed.

(** C8.  With [phone_number] [None] or empty, [process_message] raises
    [ValueError("Phone number is required")], which the chat route's
    handler treats as a validation error (status 400), and leaves the
    stores and the record of graph runs as they were:
    the graph, and so the model, is never invoked.  This holds for every
    graph, message, session id and clock. *)
Theorem process_message_requires_phone_number :
  forall (graph_stream :
            Agent.graph_input -> option string -> list Agent.checkpoint_row ->
            result (list State.UtilityAgentState) * list Agent.checkpoint_row)
         (user_input session_id : option string) (now : Agent.datetime)
         (w : Agent.world),
    Agent.process_message graph_stream user_input None session_id now w
      = (Raise (ValueError "Phone number is required"), w) /\
    Agent.process_message graph_stream user_input (Some EmptyString) session_id now w
      = (Raise (ValueError "Phone number is required"), w) /\
    Agent.chat_route_status (ValueError "Phone number is required") = 400%Z.
Proof. intros. repeat split. Qed.

(** With a phone number, the checkpoint table after a turn, failed or not,
    is the one the graph run left: [process_message] itself neither saves
    nor restores checkpoints. *)
Lemma process_message_checkpoints_are_the_graphs
    (graph_stream :
       Agent.graph_input -> option string -> list Agent.checkpoint_row ->
       result (list State.UtilityAgentState) * list Agent.checkpoint_row)
    (user_input : option string) (c : ascii) (rest : string)
    (session_id : option string) (now : Agent.datetime) (w : Agent.world) :
  Agent.checkpoints
    (snd (Agent.process_message graph_stream user_input (Some (String c rest))
            session_id now w))
  = snd (graph_stream (Agent.make_input user_input (Some (String c rest)))
           session_id (Agent.checkpoints w)).
Proof.
  unfold Agent.process_message. cbn [truthy_str String.eqb negb].
  destruct (graph_stream _ session_id (Agent.checkpoints w)) as [events saved].
  destruct (bind events (fun evs => Agent.last_message_loop evs None))
    as [[m|]|e]; reflexivity.
Qed.

(** C9.  With [user_input] [None] or empty, the graph is run on exactly one
    message, [HumanMessage] of the placeholder text: the turn's reply, its
    checkpoint table (the history stored for the thread) and its other
    stores are those the graph run on that message produces, the run is
    recorded with that message, and the whole turn is the turn of a user
    who typed the placeholder. *)
Theorem process_message_empty_input_sends_placeholder :
  forall (graph_stream :
            Agent.graph_input -> option string -> list Agent.checkpoint_row ->
            result (list State.UtilityAgentState) * list Agent.checkpoint_row)
         (c : ascii) (rest : string) (session_id : option string)
         (now : Agent.datetime) (w : Agent.world),
    let phone_number := Some (String c rest) in
    let sent :=
      {| Agent.in_messages :=
           [State.HumanMessage "ignore this message. Dont reply to this message"];
         Agent.in_phone_number := phone_number |} in
    let graph_run := graph_stream sent session_id (Agent.checkpoints w) in
    let ran :=
      {| Agent.checkpoints := snd graph_run;
         Agent.ttl := Agent.ttl w;
         Agent.invocations := Agent.invocations w ++ [(sent, session_id)] |} in
    let turn :=
      match bind (fst graph_run) (fun evs => Agent.last_message_loop evs None) with
      | Raise e => (Raise e, ran)
      | Ok None =>
          (Raise (UnboundLocalError "cannot access local variable 'last_message'"),
           ran)
      | Ok (Some last_message) =>
          (Ok (State.content last_message),
           {| Agent.checkpoints := snd graph_run;
              Agent.ttl :=
                Agent.ttl_upsert session_id (Agent.IsoFormat now) (Agent.ttl w);
              Agent.invocations := Agent.invocations w ++ [(sent, session_id)] |})
      end in
    Agent.make_input None phone_number = sent /\
    Agent.make_input (Some EmptyString) phone_number = sent /\
    Agent.process_message graph_stream None phone_number session_id now w = turn /\
    Agent.process_message graph_stream (Some EmptyString) phone_number session_id
      now w = turn /\
    Agent.checkpoints
      (snd (Agent.process_message graph_stream None phone_number session_id now w))
      = snd (graph_stream sent session_id (Agent.checkpoints w)) /\
    Agent.checkpoints
      (snd (Agent.process_message graph_stream (Some EmptyString) phone_number
              session_id now w))
      = snd (graph_stream sent session_id (Agent.checkpoints w)) /\
    Agent.invocations
      (snd (Agent.process_message graph_stream None phone_number session_id now w))
      = Agent.invocations w ++ [(sent, session_id)] /\
    Agent.invocations
      (snd (Agent.process_message graph_stream (Some EmptyString) phone_number
              session_id now w))
      = Agent.invocations w ++ [(sent, session_id)] /\
    Agent.process_message graph_stream None phone_number session_id now w
      = Agent.process_message graph_stream (Some Agent.placeholder) phone_number
          session_id now w /\
    Agent.process_message graph_stream (Some EmptyString) phone_number session_id now w
      = Agent.process_message graph_stream (Some Agent.placeholder) phone_number
          session_id now w.
Proof.
  intros graph_stream c rest session_id now w phone_number sent graph_run ran turn.
  assert (Hturn : forall user_input,
             Agent.make_input user_input phone_number = sent ->
             Agent.process_message graph_stream user_input phone_number
               session_id now w = turn).
  { intros user_input Hin. unfold Agent.process_message. rewrite Hin.
    subst turn ran graph_run phone_number. cbn [truthy_str String.eqb negb].
    destruct (graph_stream sent session_id (Agent.checkpoints w)) as [events saved].
    cbn [fst snd].
    destruct (bind events (fun evs => Agent.last_message_loop evs None))
      as [[m|]|e]; reflexivity. }
  assert (Hcp : Agent.checkpoints (snd turn) = snd graph_run).
  { subst turn ran.
    destruct (bind (fst graph_run) (fun evs => Agent.last_message_loop evs None))
      as [[m|]|e]; reflexivity. }
  assert (Hinv : Agent.invocations (snd turn)
                 = Agent.invocations w ++ [(sent, session_id)]).
  { subst turn ran.
    destruct (bind (fst graph_run) (fun evs => Agent.last_message_loop evs None))
      as [[m|]|e]; reflexivity. }
  pose proof (Hturn None eq_refl) as H1.
  pose proof (Hturn (Some EmptyString) eq_refl) as H2.
  pose proof (Hturn (Some Agent.placeholder) eq_refl) as H3.
  split; [reflexivity|]. split; [reflexivity|].
  split; [exact H1|]. split; [exact H2|].
  split; [rewrite H1; exact Hcp|]. split; [rewrite H2; exact Hcp|].
  split; [rewrite H1; exact Hinv|]. split; [rewrite H2; exact Hinv|].
  split; [rewrite H1, H3; reflexivity|rewrite H2, H3; reflexivity].
Qed.

(* ====================================================================== *)
(** ** Properties of the tools *)
(* ====================================================================== *)

(** C4.  [get_bill_balance] raises instead of returning a message: for a
    customer resolved through the local directory whose account has no
    billing row it raises [AttributeError], and on a state without
    [local_data] and without [balance] it raises [TypeError]; the branch
    that returns the message for missing billing information is never
    reached. *)
Theorem get_bill_balance_raises :
  forall (format_2f : float -> string),
    Tools.get_bill_balance format_2f Tools.billing_without_acc3
      Tools.local_customer_state
    = Raise (AttributeError "'NoneType' object has no attribute 'current_balance'") /\
    forall (billing : list Tools.BillingInfo),
      Tools.get_bill_balance format_2f billing State.empty_state
      = Raise (TypeError "unsupported format string passed to NoneType.__format__").
Proof. intros format_2f. split; [reflexivity|intros billing; reflexivity]. Qed.

Section ReportOutageFacts.
Import State Tools.

Variable llm : string -> result string.
Variable validate_customer_address : option string -> option (float * float).
Variable fromisoformat : string -> option datetime.
Variable datetime_str : datetime -> string.
Variable uuid4 : string.

(** From the address check on, the model is asked at most once, and the
    question names the fixed time. *)
Lemma report_at_prompts (start_time : string) (state : UtilityAgentState)
    (address_string : option string) (e : effects) :
  prompts (snd (report_at llm validate_customer_address fromisoformat
                  datetime_str uuid4 start_time state address_string e))
  = prompts e ++ match validate_customer_address address_string with
                 | Some _ => [fixed_time_prompt start_time]
                 | None => []
                 end.
Proof.
  unfold report_at.
  destruct (validate_customer_address address_string) as [[lat lon]|]; simpl.
  - destruct (llm _) as [reply|x]; simpl; [|reflexivity].
    destruct (strip reply =? "absent"); simpl; [reflexivity|].
    destruct (fromisoformat (strip reply)); reflexivity.
  - rewrite app_nil_r. reflexivity.
Qed.

End ReportOutageFacts.

(** C10.  The current time [report_outage] gives the model to resolve the
    start time against is the text of the fixed [datetime(2025, 7, 3, 8, 0,
    0)], which is 2025-07-03T08:00:00.  The prompts of a call are exactly:
    the address extraction prompt when an address was given, then, whenever
    the address the tool goes on with is valid, the one time extraction
    prompt, which names that time.  The start time the tool stores and
    reports is what the model answers to that prompt.  The clock of the call
    changes nothing. *)
Theorem report_outage_uses_fixed_reference_time :
  forall (llm : string -> result string)
         (validate_customer_address : option string -> option (float * float))
         (fromisoformat : string -> option Tools.datetime)
         (datetime_str : Tools.datetime -> string) (uuid4 : string)
         (clock clock' : Tools.datetime) (start_time : string)
         (state : State.UtilityAgentState) (address address_type : option string)
         (e : Tools.effects),
    let run := Tools.report_outage llm validate_customer_address fromisoformat
                 datetime_str uuid4 in
    let out := run clock start_time state address address_type e in
    let fixed := Tools.get_time_extraction_prompt start_time "2025-07-03T08:00:00" in
    let resolved := Shapes.address_for_report llm state address address_type in
    Tools.strftime Tools.reference_now = "2025-07-03T08:00:00" /\
    Tools.prompts (snd out)
      = Tools.prompts e
        ++ match address with
           | Some a => [Tools.extract_address_prompt a]
           | None => []
           end
        ++ match resolved with
           | Some address_string =>
               match validate_customer_address address_string with
               | Some _ => [fixed]
               | None => []
               end
           | None => []
           end /\
    (forall address_string coordinates reply start_time_dt,
        resolved = Some address_string ->
        validate_customer_address address_string = Some coordinates ->
        llm fixed = Ok reply ->
        (Tools.strip reply =? "absent") = false ->
        fromisoformat (Tools.strip reply) = Some start_time_dt ->
        fst out = Ok ("Reported at " ++ fstr address_string ++ ". Start time: "
                      ++ datetime_str start_time_dt ++ "
Reference number: " ++ "OUT-" ++ uuid4)%string /\
        Tools.outages (snd out)
          = Tools.outages e
            ++ [ {| Tools.reference_number := ("OUT-" ++ uuid4)%string;
                    Tools.outage_account_id := State.account_id state;
                    Tools.outage_name := State.customer_name state;
                    Tools.nature := "Water";
                    Tools.start_time := start_time_dt;
                    Tools.outage_address := address_string;
                    Tools.latitude := fst coordinates;
                    Tools.longitude := snd coordinates;
                    Tools.status := "Reported";
                    Tools.Scale := "medium" |} ]) /\
    (forall address_string coordinates reply,
        resolved = Some address_string ->
        validate_customer_address address_string = Some coordinates ->
        llm fixed = Ok reply ->
        (Tools.strip reply =? "absent") = true ->
        out = (Ok "Could not determine the outage start time. Please provide a clear time reference.",
               {| Tools.outages := Tools.outages e;
                  Tools.prompts := Tools.prompts (snd out) |})) /\
    run clock start_time state address address_type e
      = run clock' start_time state address address_type e /\
    (forall address_string e0,
        Tools.prompts
          (snd (Tools.report_at llm validate_customer_address fromisoformat
                  datetime_str uuid4 start_time state address_string e0))
        = Tools.prompts e0
          ++ match validate_customer_address address_string with
             | Some _ => [Tools.get_time_extraction_prompt start_time
                            "2025-07-03T08:00:00"]
             | None => []
             end) /\
    exists asked,
      Tools.prompts (snd (run clock start_time state address address_type e))
        = Tools.prompts e ++ asked /\
      Forall (fun prompt =>
                prompt = Tools.get_time_extraction_prompt start_time
                           "2025-07-03T08:00:00"
                \/ Some prompt = option_map Tools.extract_address_prompt address)
             asked.
Proof.
  intros llm validate fromiso dstr uuid4 clock clock' start_time state address
    address_type e run out fixed resolved.
  assert (Hprompts :
            Tools.prompts (snd out)
            = Tools.prompts e
              ++ match address with
                 | Some a => [Tools.extract_address_prompt a]
                 | None => []
                 end
              ++ match resolved with
                 | Some address_string =>
                     match validate address_string with
                     | Some _ => [fixed]
                     | None => []
                     end
                 | None => []
                 end).
  { subst out run resolved fixed.
    unfold Tools.report_outage, Shapes.address_for_report.
    destruct address as [a|].
    - simpl. destruct (llm (Tools.extract_address_prompt a)) as [r0|x]; simpl.
      + rewrite report_at_prompts. simpl. rewrite <- app_assoc. reflexivity.
      + reflexivity.
    - destruct (sql_eq address_type (Some "registered")
                && truthy_bool (State.local_data state)).
      + rewrite report_at_prompts. reflexivity.
      + destruct (_ || _); simpl; rewrite app_nil_r; reflexivity. }
  assert (Hgo : forall address_string,
             resolved = Some address_string ->
             exists e0,
               Tools.outages e0 = Tools.outages e /\
               out = Tools.report_at llm validate fromiso dstr uuid4 start_time
                       state address_string e0).
  { intros address_string Hres. subst out run resolved.
    unfold Tools.report_outage, Shapes.address_for_report in *.
    destruct address as [a|].
    - unfold Tools.ask. destruct (llm (Tools.extract_address_prompt a)) as [r0|x];
        [|discriminate].
      inversion Hres; subst address_string. simpl.
      eexists. split; [|reflexivity]. reflexivity.
    - destruct (sql_eq address_type (Some "registered")
                && truthy_bool (State.local_data state)); [|discriminate].
      inversion Hres; subst address_string. exists e. split; reflexivity. }
  split; [reflexivity|]. split; [exact Hprompts|].
  split; [|split; [|split; [reflexivity|]]].
  - intros address_string [lat lon] reply dt Hres Hval Hllm Habs Hparse.
    destruct (Hgo address_string Hres) as [e0 [He0 Hout]].
    rewrite Hout. unfold Tools.report_at. rewrite Hval. unfold Tools.ask.
    change (Tools.strftime Tools.reference_now) with "2025-07-03T08:00:00".
    fold fixed. rewrite Hllm. simpl. rewrite Habs, Hparse. simpl.
    rewrite He0. split; reflexivity.
  - intros address_string [lat lon] reply Hres Hval Hllm Habs.
    destruct (Hgo address_string Hres) as [e0 [He0 Hout]].
    rewrite Hout. unfold Tools.report_at. rewrite Hval. unfold Tools.ask.
    change (Tools.strftime Tools.reference_now) with "2025-07-03T08:00:00".
    fold fixed. rewrite Hllm. simpl. rewrite Habs. simpl. rewrite He0. reflexivity.
  - split; [intros; apply report_at_prompts|].
    subst out. exists (match address with
                       | Some a => [Tools.extract_address_prompt a]
                       | None => []
                       end
                       ++ match resolved with
                          | Some address_string =>
                              match validate address_string with
                              | Some _ => [fixed]
                              | None => []
                              end
                          | None => []
                          end).
    split; [exact Hprompts|].
    apply Forall_app. split.
    + destruct address as [a|]; constructor; [right; reflexivity|constructor].
    + destruct resolved as [address_string|]; [|constructor].
      destruct (validate address_string); constructor; [left; reflexivity|constructor].
Qed.

Lemma report_outage_uses_fixed_reference_time_witness :
  Shapes.sample_llm
    (Tools.get_time_extraction_prompt "an hour ago" "2025-07-03T08:00:00")
    = Ok "2025-07-03T07:00:00" /\
  fst (Tools.report_outage Shapes.sample_llm Shapes.sample_validator
         Shapes.sample_fromisoformat Tools.strftime "0000" Tools.reference_now
         "an hour ago" State.empty_state (Some "12 oak st dallas 75201") None
         Shapes.no_effects)
  = Ok "Reported at 12 Oak St, Dallas, TX 75201, USA. Start time: 2025-07-03T07:00:00
Reference number: OUT-0000".
Proof.
  split; [reflexivity|].
  exact (proj1 (proj1 (proj2 (proj2 (report_outage_uses_fixed_reference_time
           Shapes.sample_llm Shapes.sample_validator Shapes.sample_fromisoformat
           Tools.strftime "0000" Tools.reference_now Tools.reference_now
           "an hour ago" State.empty_state (Some "12 oak st dallas 75201") None
           Shapes.no_effects)))
           (Some "12 Oak St, Dallas, TX 75201, USA") _ _ _
           eq_refl eq_refl eq_refl eq_refl eq_refl)).
Defined.

(* ====================================================================== *)
(** ** Further properties of the verification table *)
(* ====================================================================== *)

Section TableFacts.
Import Verification Directory.

Lemma latest_in (l : list row) (r : row) : latest l = Some r -> In r l.
Proof.
  revert r. induction l as [|x l IH]; simpl; intros r H; [discriminate|].
  destruct (latest l) as [r'|].
  - destruct (verified_at x <? verified_at r')%Z; inversion H; subst.
    + right. apply IH. reflexivity.
    + left. reflexivity.
  - inversion H. left. reflexivity.
Qed.

Lemma latest_none (l : list row) : latest l = None -> l = [].
Proof.
  destruct l as [|x l]; simpl; [reflexivity|].
  destruct (latest l) as [r'|]; [|discriminate].
  destruct (verified_at x <? verified_at r')%Z; discriminate.
Qed.

Lemma latest_is_max (l : list row) (r : row) :
  latest l = Some r -> forall r', In r' l -> (verified_at r' <= verified_at r)%Z.
Proof.
  revert r. induction l as [|x l IH]; simpl; intros r H r' Hin; [destruct Hin|].
  destruct (latest l) as [m|] eqn:E.
  - specialize (IH m eq_refl).
    destruct (verified_at x <? verified_at m)%Z eqn:Hlt; inversion H; subst.
    + apply Z.ltb_lt in Hlt. destruct Hin as [->|Hin]; [lia|apply IH, Hin].
    + apply Z.ltb_ge in Hlt. destruct Hin as [->|Hin]; [lia|].
      specialize (IH r' Hin). lia.
  - inversion H; subst. apply latest_none in E. subst l.
    destruct Hin as [->|[]]. lia.
Qed.

Lemma active_for_filter_sub (p : string) (t : table) (r : row) :
  In r (filter (active_for p) t) ->
  In r (filter is_active t) /\ phone_number r = p.
Proof.
  intros H. apply filter_In in H. destruct H as [Hin Ha].
  unfold active_for in Ha. apply andb_true_iff in Ha. destruct Ha as [Hp Hact].
  split; [apply filter_In; split; assumption|apply String.eqb_eq, Hp].
Qed.

Lemma find_some_iff_existsb {A : Type} (f : A -> bool) (l : list A) :
  (exists a, find f l = Some a) <-> existsb f l = true.
Proof.
  induction l as [|x l IH]; simpl.
  - split; [intros [a H]; discriminate|discriminate].
  - destruct (f x); simpl; [split; eauto|exact IH].
Qed.

Lemma deactivate_map_inactive (p : string) (t : table) :
  filter (active_for p) (snd (deactivate_phone_verification p t)) = [].
Proof.
  unfold deactivate_phone_verification. simpl.
  induction t as [|r t IH]; simpl; [reflexivity|].
  destruct (phone_number r =? p) eqn:E; unfold active_for; simpl; rewrite E; simpl.
  - exact IH.
  - exact IH.
Qed.

Lemma filter_all_true {A : Type} (l : list A) : filter (fun _ => true) l = l.
Proof. induction l as [|x l IH]; simpl; [reflexivity|f_equal; exact IH]. Qed.

Lemma filter_none {A : Type} (f : A -> bool) (l : list A) :
  (forall x, In x l -> f x = false) -> filter f l = [].
Proof.
  induction l as [|x l IH]; simpl; intros H; [reflexivity|].
  rewrite (H x (or_introl eq_refl)). apply IH. intros y Hy. apply H. right. exact Hy.
Qed.

Lemma filter_id {A : Type} (f : A -> bool) (l : list A) :
  (forall x, In x l -> f x = true) -> filter f l = l.
Proof.
  induction l as [|x l IH]; simpl; intros H; [reflexivity|].
  rewrite (H x (or_introl eq_refl)). f_equal. apply IH. intros y Hy. apply H.
  right. exact Hy.
Qed.

End TableFacts.

(** X1.  [verify_phone_number] succeeds exactly when an account of the
    directory has the number, and a failed call returns the table it was
    given. *)
Theorem verify_succeeds_iff_number_is_known :
  forall (accs : list Verification.Account) (p : string) (sid : option string)
         (now : Z) (t : Verification.table),
    (fst (Verification.verify_phone_number accs p sid now t) = true <->
     exists a, In a accs /\ Verification.phone a = Some p) /\
    (fst (Verification.verify_phone_number accs p sid now t) = false ->
     Verification.verify_phone_number accs p sid now t = (false, t)).
Proof.
  intros accs p sid now t. unfold Verification.verify_phone_number.
  unfold Verification.get_customer_by_phone.
  destruct (find (fun a => sql_eq (Verification.phone a) (Some p)) accs)
    as [customer|] eqn:E.
  - assert (Hex : exists a, In a accs /\ Verification.phone a = Some p).
    { apply find_some in E. destruct E as [Hin Heq]. exists customer. split; [exact Hin|].
      destruct (Verification.phone customer) as [q|]; simpl in Heq; [|discriminate].
      apply String.eqb_eq in Heq. subst q. reflexivity. }
    destruct (existsb (Verification.active_for p) t); simpl;
      (split; [split; [intros _; exact Hex|reflexivity]|discriminate]).
  - simpl. split; [|reflexivity]. split; [discriminate|].
    intros [a [Hin Hp]]. pose proof (find_none _ _ E a Hin) as Hn.
    cbv beta in Hn. rewrite Hp in Hn. simpl in Hn.
    rewrite String.eqb_refl in Hn. discriminate.
Qed.

(** X2.  After a successful verification of a number, on a table any
    history of calls has left, the status query reports that number as
    verified and every other number as not verified, whatever directory the
    query reads: verifying one number withdraws the verification of all
    others. *)
Theorem verify_withdraws_all_other_numbers :
  forall (history : list Verification.op) (accs accs' : list Verification.Account)
         (p q : string) (sid : option string) (now : Z) (t' : Verification.table),
    Verification.verify_phone_number accs p sid now (Verification.run history)
      = (true, t') ->
    Directory.verified (Directory.check_phone_verification_status accs p t') = true /\
    (Directory.verified (Directory.check_phone_verification_status accs' q t') = true ->
     q = p).
Proof.
  intros history accs accs' p q sid now t' H.
  destruct (verify_outcome accs p sid now _ t' (run_single_active history) H)
    as [r [Hf [Hp [Hin [Hex _]]]]].
  split.
  - unfold Directory.check_phone_verification_status.
    unfold Verification.verify_phone_number in H.
    destruct (Verification.get_customer_by_phone accs (Some p)); [|discriminate].
    destruct (Verification.latest (filter (Verification.active_for p) t')) eqn:E;
      [reflexivity|].
    apply latest_none in E. apply existsb_exists in Hex. destruct Hex as [x [Hx Hax]].
    assert (Hx' : In x (filter (Verification.active_for p) t'))
      by (apply filter_In; split; assumption).
    rewrite E in Hx'. destruct Hx'.
  - unfold Directory.check_phone_verification_status.
    destruct (Verification.get_customer_by_phone accs' (Some q)); [|discriminate].
    destruct (Verification.latest (filter (Verification.active_for q) t')) as [x|] eqn:E;
      [|discriminate].
    intros _. apply latest_in in E. apply active_for_filter_sub in E.
    destruct E as [Hact Hq]. rewrite Hf in Hact. destruct Hact as [<-|[]].
    rewrite <- Hq. exact Hp.
Qed.

Lemma verify_withdraws_all_other_numbers_witness :
  Verification.verify_phone_number Verification.sample_accounts "5550000003"
    (Some "s3") 400 (Verification.run Verification.sample_history)
    = (true, [Verification.sample_row]) /\
  Directory.verified
    (Directory.check_phone_verification_status Verification.sample_accounts
       "5550000003" [Verification.sample_row]) = true.
Proof.
  assert (H : Verification.verify_phone_number Verification.sample_accounts
                "5550000003" (Some "s3") 400
                (Verification.run Verification.sample_history)
              = (true, [Verification.sample_row])) by reflexivity.
  split; [exact H|].
  exact (proj1 (verify_withdraws_all_other_numbers _ _ Verification.sample_accounts
                  _ "5550000001" _ _ _ H)).
Defined.

(** X3.  [get_active_phone_verification] returns [None] exactly when no row
    is active, and otherwise the record of an active row no other active
    row is more recent than. *)
Theorem get_active_is_a_most_recent_active_row :
  forall (t : Verification.table),
    (Verification.get_active_phone_verification t = None <->
     forall r, In r t -> Verification.is_active r = false) /\
    (forall v, Verification.get_active_phone_verification t = Some v ->
       exists r,
         In r t /\ Verification.is_active r = true /\ v = Verification.to_dict r /\
         forall r', In r' t -> Verification.is_active r' = true ->
                    (Verification.verified_at r' <= Verification.verified_at r)%Z).
Proof.
  intros t. unfold Verification.get_active_phone_verification. split.
  - split.
    + intros H r Hin.
      destruct (Verification.latest (filter Verification.is_active t)) eqn:E;
        [discriminate|].
      apply latest_none in E.
      destruct (Verification.is_active r) eqn:Ha; [|reflexivity].
      assert (Hr : In r (filter Verification.is_active t))
        by (apply filter_In; split; assumption).
      rewrite E in Hr. destruct Hr.
    + intros H. rewrite (filter_none _ _ H). reflexivity.
  - intros v H.
    destruct (Verification.latest (filter Verification.is_active t)) as [r|] eqn:E;
      [|discriminate].
    inversion H; subst v. exists r.
    pose proof (latest_in _ _ E) as Hin. apply filter_In in Hin. destruct Hin as [Hin Ha].
    repeat split; try assumption.
    intros r' Hin' Ha'. apply (latest_is_max _ _ E).
    apply filter_In. split; assumption.
Qed.

(** X4.  [deactivate_phone_verification] keeps every row, switches the
    number off so that the status query no longer reports it verified,
    leaves the rows of other numbers as they were, and a second call finds
    the same table and returns the same flag: it reports success again for
    a number that is already inactive. *)
Theorem deactivate_switches_number_off :
  forall (accs : list Verification.Account) (p : string) (t : Verification.table),
    let t' := snd (Verification.deactivate_phone_verification p t) in
    length t' = length t /\
    Directory.verified (Directory.check_phone_verification_status accs p t') = false /\
    Directory.rows_of_other_numbers p t' = Directory.rows_of_other_numbers p t /\
    Verification.deactivate_phone_verification p t'
      = (fst (Verification.deactivate_phone_verification p t), t').
Proof.
  intros accs p t t'. subst t'. repeat split.
  - unfold Verification.deactivate_phone_verification. simpl. apply length_map.
  - unfold Directory.check_phone_verification_status.
    rewrite deactivate_map_inactive.
    destruct (Verification.get_customer_by_phone accs (Some p)); reflexivity.
  - unfold Verification.deactivate_phone_verification, Directory.rows_of_other_numbers.
    simpl. induction t as [|r t IH]; simpl; [reflexivity|].
    destruct (Verification.phone_number r =? p) eqn:E; simpl; rewrite E; simpl.
    + exact IH.
    + f_equal. exact IH.
  - unfold Verification.deactivate_phone_verification. simpl.
    assert (Hflag : forall l : Verification.table,
               existsb (fun r => Verification.phone_number r =? p)
                 (map (fun r => if Verification.phone_number r =? p
                                then {| Verification.phone_number := Verification.phone_number r;
                                        Verification.row_account_id := Verification.row_account_id r;
                                        Verification.verified_at := Verification.verified_at r;
                                        Verification.session_id := Verification.session_id r;
                                        Verification.verification_method :=
                                          Verification.verification_method r;
                                        Verification.is_active := false |}
                                else r) l)
               = existsb (fun r => Verification.phone_number r =? p) l).
    { induction l as [|r l IH]; simpl; [reflexivity|].
      destruct (Verification.phone_number r =? p) eqn:E; simpl; rewrite E; simpl;
        [reflexivity|exact IH]. }
    rewrite Hflag. apply f_equal.
    assert (Hmap : forall l : Verification.table,
               map (fun r => if Verification.phone_number r =? p
                             then {| Verification.phone_number := Verification.phone_number r;
                                     Verification.row_account_id := Verification.row_account_id r;
                                     Verification.verified_at := Verification.verified_at r;
                                     Verification.session_id := Verification.session_id r;
                                     Verification.verification_method :=
                                       Verification.verification_method r;
                                     Verification.is_active := false |}
                             else r)
                 (map (fun r => if Verification.phone_number r =? p
                                then {| Verification.phone_number := Verification.phone_number r;
                                        Verification.row_account_id := Verification.row_account_id r;
                                        Verification.verified_at := Verification.verified_at r;
                                        Verification.session_id := Verification.session_id r;
                                        Verification.verification_method :=
                                          Verification.verification_method r;
                                        Verification.is_active := false |}
                                else r) l)
               = map (fun r => if Verification.phone_number r =? p
                               then {| Verification.phone_number := Verification.phone_number r;
                                       Verification.row_account_id := Verification.row_account_id r;
                                       Verification.verified_at := Verification.verified_at r;
                                       Verification.session_id := Verification.session_id r;
                                       Verification.verification_method :=
                                         Verification.verification_method r;
                                       Verification.is_active := false |}
                               else r) l).
    { induction l as [|r l IH]; simpl; [reflexivity|].
      destruct (Verification.phone_number r =? p) eqn:E; simpl; rewrite E; simpl;
        f_equal; exact IH. }
    apply Hmap.
Qed.

(** X5.  Deactivating the number that was just verified leaves no active
    verification at all: [get_active_phone_verification] returns [None],
    whatever was verified before. *)
Theorem deactivating_verified_number_leaves_none_active :
  forall (history : list Verification.op) (accs : list Verification.Account)
         (p : string) (sid : option string) (now : Z) (t1 : Verification.table),
    Verification.verify_phone_number accs p sid now (Verification.run history)
      = (true, t1) ->
    Verification.deactivate_phone_verification p t1
      = (true, snd (Verification.deactivate_phone_verification p t1)) /\
    Verification.get_active_phone_verification
      (snd (Verification.deactivate_phone_verification p t1)) = None.
Proof.
  intros history accs p sid now t1 H.
  destruct (verify_outcome accs p sid now _ t1 (run_single_active history) H)
    as [r [Hf [Hp [Hin _]]]].
  split.
  - unfold Verification.deactivate_phone_verification. simpl.
    assert (E : existsb (fun x => Verification.phone_number x =? p) t1 = true).
    { apply existsb_exists. exists r. split; [exact Hin|]. apply String.eqb_eq, Hp. }
    rewrite E. reflexivity.
  - unfold Verification.get_active_phone_verification.
    rewrite filter_none; [reflexivity|].
    intros x Hx. unfold Verification.deactivate_phone_verification in Hx. simpl in Hx.
    apply in_map_iff in Hx. destruct Hx as [y [Hy Hyin]].
    destruct (Verification.phone_number y =? p) eqn:E.
    + subst x. reflexivity.
    + subst x. destruct (Verification.is_active y) eqn:Ha; [|reflexivity].
      assert (Hy : In y (filter Verification.is_active t1))
        by (apply filter_In; split; assumption).
      rewrite Hf in Hy. destruct Hy as [<-|[]].
      apply String.eqb_neq in E. contradiction.
Qed.

Lemma deactivating_verified_number_leaves_none_active_witness :
  Verification.verify_phone_number Verification.sample_accounts "5550000003"
    (Some "s3") 400 (Verification.run Verification.sample_history)
    = (true, [Verification.sample_row]) /\
  Verification.get_active_phone_verification
    (snd (Verification.deactivate_phone_verification "5550000003"
            [Verification.sample_row])) = None.
Proof.
  assert (H : Verification.verify_phone_number Verification.sample_accounts
                "5550000003" (Some "s3") 400
                (Verification.run Verification.sample_history)
              = (true, [Verification.sample_row])) by reflexivity.
  split; [exact H|].
  exact (proj2 (deactivating_verified_number_leaves_none_active _ _ _ _ _ _ H)).
Defined.

(** X6.  [clear_phone_verifications_by_session] deletes exactly the rows of
    the session and keeps the others; called again it deletes nothing and
    returns [False]; and with no session id it deletes nothing at all,
    because no row's session equals NULL. *)
Theorem clear_by_session_deletes_only_that_session :
  forall (sid : option string) (t : Verification.table),
    let t' := snd (Verification.clear_phone_verifications_by_session sid t) in
    (forall r, In r t' <-> In r t /\ sql_eq (Verification.session_id r) sid = false) /\
    Verification.clear_phone_verifications_by_session sid t' = (false, t') /\
    Verification.clear_phone_verifications_by_session None t = (false, t).
Proof.
  intros sid t t'. subst t'. unfold Verification.clear_phone_verifications_by_session.
  simpl. split; [|split].
  - intros r. rewrite filter_In, negb_true_iff. tauto.
  - apply f_equal2.
    + apply not_true_is_false. intros H. apply existsb_exists in H.
      destruct H as [r [Hin Hr]]. apply filter_In in Hin. destruct Hin as [_ Hn].
      rewrite Hr in Hn. discriminate.
    + apply filter_id. intros r Hin. apply filter_In in Hin. tauto.
  - apply f_equal2.
    + apply not_true_is_false. intros H. apply existsb_exists in H.
      destruct H as [r [_ Hr]]. destruct (Verification.session_id r); discriminate.
    + apply filter_id. intros r _. destruct (Verification.session_id r); reflexivity.
Qed.

(** X7.  A number that is not active yet and is then verified without a
    session id, as the verification tool and the verify route call it, is
    not forgotten by a reset: whatever phone number and session id
    [clear_data] is given, the verification table and the active
    verification stay as they were.  (A number that is already active keeps
    the session id of its earlier row, which a reset with that id deletes.) *)
Theorem reset_keeps_verification_made_without_session :
  forall (accs : list Verification.Account) (p : string) (now : Z)
         (t t1 : Verification.table) (phone_number : string)
         (session_id : option string) (w : Agent.world),
    existsb (Verification.active_for p) t = false ->
    Verification.verify_phone_number accs p None now t = (true, t1) ->
    snd (Routes.clear_data phone_number session_id w t1) = t1 /\
    exists v,
      Verification.v_phone_number v = p /\
      Verification.get_active_phone_verification
        (snd (Routes.clear_data phone_number session_id w t1)) = Some v.
Proof.
  intros accs p now t t1 phone_number session_id w Hnew H.
  unfold Verification.verify_phone_number in H.
  destruct (Verification.get_customer_by_phone accs (Some p)) as [customer|];
    [|discriminate].
  rewrite Hnew in H. inversion H; subst t1; clear H.
  unfold Routes.clear_data. simpl.
  destruct (negb (phone_number =? EmptyString)); simpl.
  - split; [reflexivity|]. eexists. split; [|reflexivity]. reflexivity.
  - split; [reflexivity|]. eexists. split; [|reflexivity]. reflexivity.
Qed.

Lemma reset_keeps_verification_made_without_session_witness :
  existsb (Verification.active_for "5550000003") [] = false /\
  Verification.verify_phone_number Verification.sample_accounts "5550000003" None
    400 [] = (true, snd (Verification.verify_phone_number
                           Verification.sample_accounts "5550000003" None 400 [])) /\
  snd (Routes.clear_data "5550000003" (Some "s3") Shapes.empty_world
         (snd (Verification.verify_phone_number Verification.sample_accounts
                 "5550000003" None 400 [])))
  = snd (Verification.verify_phone_number Verification.sample_accounts
           "5550000003" None 400 []).
Proof.
  split; [reflexivity|]. split; [reflexivity|].
  exact (proj1 (reset_keeps_verification_made_without_session
                  Verification.sample_accounts "5550000003" 400 [] _ "5550000003"
                  (Some "s3") Shapes.empty_world eq_refl eq_refl)).
Defined.

(** X8.  Whatever sequence of verifications (by either writer),
    deactivations and clears has run since the table was created, at most
    one row is active, and an active row is the one
    [get_active_phone_verification] returns. *)
Theorem every_history_leaves_at_most_one_active_row :
  forall (history : list Verification.op),
    Verification.active_count (Verification.run history) <= 1 /\
    forall r, In r (Verification.run history) -> Verification.is_active r = true ->
              Verification.get_active_phone_verification (Verification.run history)
                = Some (Verification.to_dict r).
Proof.
  intros history. pose proof (run_single_active history) as Hle.
  split; [exact Hle|]. intros r Hin Ha.
  unfold Verification.get_active_phone_verification.
  unfold Verification.active_count in Hle.
  assert (Hr : In r (filter Verification.is_active (Verification.run history)))
    by (apply filter_In; split; assumption).
  destruct (filter Verification.is_active (Verification.run history))
    as [|x [|y rest]]; simpl in *.
  - destruct Hr.
  - destruct Hr as [->|[]]. reflexivity.
  - lia.
Qed.

(* ====================================================================== *)
(** ** Further properties of the stores, the turn and the reaper *)
(* ====================================================================== *)

Section StoreFacts.
Import State Agent Shapes.

Lemma sweep_world (cutoff : datetime) (rows : list ttl_row) (s : sweep) :
  ttl (sw_world (fold_left (sweep_row cutoff) rows s)) = ttl (sw_world s) /\
  invocations (sw_world (fold_left (sweep_row cutoff) rows s))
    = invocations (sw_world s).
Proof.
  destruct (sweep_fold cutoff rows s) as [_ [_ [_ [Ht Hi]]]]. split; assumption.
Qed.

Lemma upsert_rows_of (thread : option string) (time : time_text)
    (rows : list ttl_row) :
  Forall (fun r => last_message_time r = Some time)
         (ttl_rows_of thread (ttl_upsert thread time rows)).
Proof.
  unfold ttl_upsert, ttl_rows_of.
  assert (Hmap : Forall (fun r => last_message_time r = Some time)
            (filter (fun r => sql_eq (ttl_thread_id r) thread)
               (map (fun r => if sql_eq (ttl_thread_id r) thread
                              then {| ttl_thread_id := ttl_thread_id r;
                                      last_message_time := Some time |}
                              else r) rows))).
  { induction rows as [|r rows IH]; simpl; [constructor|].
    destruct (sql_eq (ttl_thread_id r) thread) eqn:E; simpl; rewrite E.
    - constructor; [reflexivity|exact IH].
    - exact IH. }
  destruct (existsb (fun r => sql_eq (ttl_thread_id r) thread) rows) eqn:Ex.
  - exact Hmap.
  - rewrite filter_app. apply Forall_app. split.
    + rewrite filter_none; [constructor|].
      intros x Hx. apply not_true_is_false. intros Hc.
      assert (Hex : existsb (fun r => sql_eq (ttl_thread_id r) thread) rows = true)
        by (apply existsb_exists; exists x; split; assumption).
      rewrite Hex in Ex. discriminate.
    + simpl. destruct (sql_eq thread thread); repeat constructor.
Qed.

Lemma upsert_rows_of_others (thread : option string) (time : time_text)
    (rows : list ttl_row) :
  ttl_rows_of_others thread (ttl_upsert thread time rows)
  = ttl_rows_of_others thread rows
    ++ match thread with
       | Some _ => []
       | None => [ {| ttl_thread_id := None; last_message_time := Some time |} ]
       end.
Proof.
  unfold ttl_upsert, ttl_rows_of_others.
  destruct (existsb (fun r => sql_eq (ttl_thread_id r) thread) rows) eqn:Ex.
  - assert (Hs : exists s, thread = Some s).
    { apply existsb_exists in Ex. destruct Ex as [x [_ Hx]].
      destruct thread as [s|]; [eauto|]. destruct (ttl_thread_id x); discriminate. }
    destruct Hs as [s ->]. rewrite app_nil_r. clear Ex.
    induction rows as [|r rows IH]; simpl; [reflexivity|].
    destruct (sql_eq (ttl_thread_id r) (Some s)) eqn:E; simpl; rewrite E; simpl.
    + exact IH.
    + f_equal. exact IH.
  - rewrite filter_app. f_equal. simpl.
    destruct thread as [s|]; simpl; [|reflexivity].
    rewrite String.eqb_refl. reflexivity.
Qed.

(** A thread none of whose TTL rows is stale keeps its checkpoints. *)
Lemma fresh_thread_survives (cutoff : datetime) (rows : list ttl_row)
    (thread : string) (cps : list checkpoint_row) :
  (forall r, In r rows -> ttl_thread_id r = Some thread ->
             stale_row cutoff r = false) ->
  checkpoints_of thread (filter (survives cutoff rows) cps)
  = checkpoints_of thread cps.
Proof.
  intros H. unfold checkpoints_of. rewrite filter_twice. apply filter_ext.
  intros c. destruct (thread_id c =? thread) eqn:E; [|apply andb_false_r].
  rewrite andb_true_r. apply String.eqb_eq in E.
  unfold survives. apply negb_true_iff. apply not_true_is_false. intros Hex.
  apply existsb_exists in Hex. destruct Hex as [r [Hin Hr]].
  apply andb_true_iff in Hr. destruct Hr as [Hs Heq].
  destruct (ttl_thread_id r) as [th|] eqn:Et; simpl in Heq; [|discriminate].
  apply String.eqb_eq in Heq. rewrite E in Heq. subst th.
  rewrite (H r Hin Et) in Hs. discriminate.
Qed.

Lemma sweep_checkpoints (now : datetime) (w : world) :
  checkpoints (sw_world (clear_old_checkpoints now w))
  = filter (survives (now - timedelta_minutes 45)%Z (ttl w)) (checkpoints w).
Proof.
  unfold clear_old_checkpoints.
  destruct (sweep_fold (now - timedelta_minutes 45)%Z (ttl w)
              {| sw_world := w; cleared := 0; clear_calls := [] |}) as [Hc _].
  exact Hc.
Qed.

Lemma last_message_loop_some (events : list UtilityAgentState)
    (start : option message) (m : message) :
  last_message_loop events start = Ok (Some m) ->
  (events = [] /\ start = Some m) \/
  (exists ev, last_of events = Some ev /\ last_of (messages ev) = Some m).
Proof.
  revert start. induction events as [|ev events IH]; simpl; intros start H.
  - left. inversion H. split; reflexivity.
  - right. destruct (rev (messages ev)) as [|x xs] eqn:E; [discriminate|].
    destruct (IH _ H) as [[-> Hs]|[ev' [Hl Hm]]].
    + inversion Hs; subst x. exists ev. unfold last_of. simpl. rewrite E. split; reflexivity.
    + exists ev'. split; [|exact Hm]. unfold last_of in *. simpl.
      destruct (rev events) as [|y ys]; [discriminate|]. simpl. exact Hl.
Qed.

End StoreFacts.

(** X9.  [clear_memory] deletes every checkpoint of the thread and no
    checkpoint of any other thread, leaves the TTL table as it was (the
    thread stays on the reaper's list), changes nothing when repeated, and
    with no session id deletes nothing. *)
Theorem clear_memory_deletes_one_thread_only :
  forall (thread other : string) (w : Agent.world),
    Shapes.checkpoints_of thread
      (Agent.checkpoints (Agent.clear_memory (Some thread) w)) = [] /\
    (other <> thread ->
     Shapes.checkpoints_of other
       (Agent.checkpoints (Agent.clear_memory (Some thread) w))
     = Shapes.checkpoints_of other (Agent.checkpoints w)) /\
    Agent.ttl (Agent.clear_memory (Some thread) w) = Agent.ttl w /\
    Agent.clear_memory (Some thread) (Agent.clear_memory (Some thread) w)
      = Agent.clear_memory (Some thread) w /\
    Agent.clear_memory None w = w.
Proof.
  intros thread other w. unfold Agent.clear_memory, Shapes.checkpoints_of. simpl.
  repeat split.
  - rewrite filter_twice. apply filter_none. intros c _.
    destruct (Agent.thread_id c =? thread); reflexivity.
  - intros Hne. rewrite filter_twice. apply filter_ext. intros c.
    destruct (Agent.thread_id c =? thread) eqn:E; simpl; [|reflexivity].
    apply String.eqb_eq in E. rewrite E.
    destruct (thread =? other) eqn:E'; [|reflexivity].
    apply String.eqb_eq in E'. congruence.
  - f_equal. rewrite filter_twice. apply filter_ext. intros c.
    destruct (Agent.thread_id c =? thread); reflexivity.
  - destruct w as [cps rows runs]. simpl. f_equal. apply filter_all_true.
Qed.

(** X10.  A sweep never removes a TTL row.  So a later sweep, at any time,
    calls [clear_memory] on the same threads and counts the same number of
    cleared sessions as it would have without the earlier one, and a sweep
    repeated at the same time deletes no further checkpoint. *)
Theorem sweep_keeps_ttl_rows :
  forall (now later : Agent.datetime) (w : Agent.world),
    let first := Agent.sw_world (Agent.clear_old_checkpoints now w) in
    Agent.ttl first = Agent.ttl w /\
    Agent.clear_calls (Agent.clear_old_checkpoints later first)
      = Agent.clear_calls (Agent.clear_old_checkpoints later w) /\
    Agent.cleared (Agent.clear_old_checkpoints later first)
      = Agent.cleared (Agent.clear_old_checkpoints later w) /\
    Agent.checkpoints (Agent.sw_world (Agent.clear_old_checkpoints now first))
      = Agent.checkpoints first.
Proof.
  intros now later w first.
  assert (Httl : Agent.ttl first = Agent.ttl w).
  { subst first. unfold Agent.clear_old_checkpoints. apply sweep_world. }
  assert (Hcalls : forall t w1 w2, Agent.ttl w1 = Agent.ttl w2 ->
             Agent.clear_calls (Agent.clear_old_checkpoints t w1)
               = Agent.clear_calls (Agent.clear_old_checkpoints t w2) /\
             Agent.cleared (Agent.clear_old_checkpoints t w1)
               = Agent.cleared (Agent.clear_old_checkpoints t w2)).
  { intros t w1 w2 E. unfold Agent.clear_old_checkpoints. rewrite E.
    destruct (sweep_fold (t - Agent.timedelta_minutes 45)%Z (Agent.ttl w2)
                {| Agent.sw_world := w1; Agent.cleared := 0; Agent.clear_calls := [] |})
      as [_ [Hl1 [Hn1 _]]].
    destruct (sweep_fold (t - Agent.timedelta_minutes 45)%Z (Agent.ttl w2)
                {| Agent.sw_world := w2; Agent.cleared := 0; Agent.clear_calls := [] |})
      as [_ [Hl2 [Hn2 _]]].
    simpl in *. rewrite Hl1, Hl2, Hn1, Hn2. split; reflexivity. }
  split; [exact Httl|]. split; [apply Hcalls, Httl|]. split; [apply Hcalls, Httl|].
  rewrite sweep_checkpoints, Httl. subst first. rewrite sweep_checkpoints.
  rewrite filter_twice. apply filter_ext. intros c.
  destruct (Agent.survives _ _ c); reflexivity.
Qed.

(** X11.  A thread is reaped only through a TTL row that is strictly older
    than 45 minutes: when no TTL row of the thread is (none exists, the
    time is NULL or unreadable, or the last message is 45 minutes old or
    newer), the sweep keeps all of its checkpoints. *)
Theorem thread_without_stale_ttl_row_is_kept :
  forall (now : Agent.datetime) (w : Agent.world) (thread : string),
    (forall r, In r (Agent.ttl w) -> Agent.ttl_thread_id r = Some thread ->
               Agent.stale_row (now - Agent.timedelta_minutes 45)%Z r = false) ->
    Shapes.checkpoints_of thread
      (Agent.checkpoints (Agent.sw_world (Agent.clear_old_checkpoints now w)))
    = Shapes.checkpoints_of thread (Agent.checkpoints w).
Proof.
  intros now w thread H. rewrite sweep_checkpoints. apply fresh_thread_survives, H.
Qed.

Lemma thread_without_stale_ttl_row_is_kept_witness :
  Shapes.checkpoints_of "thread-45"
    (Agent.checkpoints
       (Agent.sw_world
          (Agent.clear_old_checkpoints 3000000000%Z (Shapes.boundary_world 3000000000%Z))))
  = Shapes.checkpoints_of "thread-45"
      (Agent.checkpoints (Shapes.boundary_world 3000000000%Z)).
Proof.
  apply (thread_without_stale_ttl_row_is_kept 3000000000%Z
           (Shapes.boundary_world 3000000000%Z) "thread-45").
  intros r Hin _. simpl in Hin.
  destruct Hin as [<-|[<-|[<-|[]]]]; reflexivity.
Defined.

(** X12.  A thread that has just been served is not reaped for 45
    minutes: after a successful turn at time [now], a sweep at any time up
    to 45 minutes later keeps every checkpoint of the thread. *)
Theorem served_thread_is_kept_for_45_minutes :
  forall (graph_stream :
            Agent.graph_input -> option string -> list Agent.checkpoint_row ->
            result (list State.UtilityAgentState) * list Agent.checkpoint_row)
         (user_input phone_number : option string) (thread : string)
         (now later : Agent.datetime) (w w' : Agent.world) (reply : string),
    Agent.process_message graph_stream user_input phone_number (Some thread) now w
      = (Ok reply, w') ->
    (later - Agent.timedelta_minutes 45 <= now)%Z ->
    Shapes.checkpoints_of thread
      (Agent.checkpoints (Agent.sw_world (Agent.clear_old_checkpoints later w')))
    = Shapes.checkpoints_of thread (Agent.checkpoints w').
Proof.
  intros graph_stream user_input phone_number thread now later w w' reply H Hle.
  rewrite sweep_checkpoints. apply fresh_thread_survives.
  unfold Agent.process_message in H.
  destruct (negb (truthy_str phone_number)); [discriminate|].
  destruct (graph_stream _ (Some thread) (Agent.checkpoints w)) as [events saved].
  destruct (bind events (fun evs => Agent.last_message_loop evs None))
    as [[m|]|e]; try discriminate.
  inversion H; subst w'; clear H. simpl.
  intros r Hin Hth.
  pose proof (upsert_rows_of (Some thread) (Agent.IsoFormat now) (Agent.ttl w)) as Hall.
  rewrite Forall_forall in Hall.
  assert (Hr : In r (Shapes.ttl_rows_of (Some thread)
                       (Agent.ttl_upsert (Some thread) (Agent.IsoFormat now) (Agent.ttl w)))).
  { unfold Shapes.ttl_rows_of. apply filter_In. split; [exact Hin|].
    rewrite Hth. simpl. apply String.eqb_refl. }
  specialize (Hall r Hr). unfold Agent.stale_row. rewrite Hall.
  apply Z.ltb_ge. exact Hle.
Qed.

Lemma served_thread_is_kept_for_45_minutes_witness :
  Shapes.checkpoints_of "thread-1"
    (Agent.checkpoints
       (Agent.sw_world
          (Agent.clear_old_checkpoints 2700000000%Z
             (snd (Agent.process_message Shapes.answering_graph (Some "hello")
                     (Some "5550000001") (Some "thread-1") 0%Z Shapes.empty_world)))))
  = Shapes.checkpoints_of "thread-1"
      (Agent.checkpoints
         (snd (Agent.process_message Shapes.answering_graph (Some "hello")
                 (Some "5550000001") (Some "thread-1") 0%Z Shapes.empty_world))).
Proof.
  apply (served_thread_is_kept_for_45_minutes Shapes.answering_graph (Some "hello")
           (Some "5550000001") "thread-1" 0%Z 2700000000%Z Shapes.empty_world _
           "Hello, how can I help?").
  - reflexivity.
  - unfold Agent.timedelta_minutes. lia.
Defined.

(** X13.  A turn writes the TTL table only when it succeeds and only for
    its own thread: a failed turn leaves the table as it was; a successful
    turn sets the time of every TTL row of its thread to the time of the
    turn and leaves the rows of all other threads in place (a turn without
    a session id adds one row with a NULL thread id). *)
Theorem turn_updates_only_its_own_ttl_rows :
  forall (graph_stream :
            Agent.graph_input -> option string -> list Agent.checkpoint_row ->
            result (list State.UtilityAgentState) * list Agent.checkpoint_row)
         (user_input phone_number session_id : option string)
         (now : Agent.datetime) (w : Agent.world),
    let turn :=
      Agent.process_message graph_stream user_input phone_number session_id now w in
    match fst turn with
    | Raise _ => Agent.ttl (snd turn) = Agent.ttl w
    | Ok _ =>
        Forall (fun r => Agent.last_message_time r = Some (Agent.IsoFormat now))
               (Shapes.ttl_rows_of session_id (Agent.ttl (snd turn))) /\
        Shapes.ttl_rows_of_others session_id (Agent.ttl (snd turn))
        = Shapes.ttl_rows_of_others session_id (Agent.ttl w)
          ++ match session_id with
             | Some _ => []
             | None => [ {| Agent.ttl_thread_id := None;
                            Agent.last_message_time := Some (Agent.IsoFormat now) |} ]
             end
    end.
Proof.
  intros graph_stream user_input phone_number session_id now w turn. subst turn.
  unfold Agent.process_message.
  destruct (negb (truthy_str phone_number)); [reflexivity|].
  destruct (graph_stream _ session_id (Agent.checkpoints w)) as [events saved].
  destruct (bind events (fun evs => Agent.last_message_loop evs None))
    as [[m|]|e]; simpl; try reflexivity.
  split; [apply upsert_rows_of|apply upsert_rows_of_others].
Qed.

(** X14.  The reply of a successful turn is the content of the last message
    of the last state the graph yielded, and the checkpoint table after the
    turn is the one the graph run left. *)
Theorem reply_is_last_message_of_last_state :
  forall (graph_stream :
            Agent.graph_input -> option string -> list Agent.checkpoint_row ->
            result (list State.UtilityAgentState) * list Agent.checkpoint_row)
         (user_input phone_number session_id : option string)
         (now : Agent.datetime) (w w' : Agent.world) (reply : string),
    Agent.process_message graph_stream user_input phone_number session_id now w
      = (Ok reply, w') ->
    exists events state m,
      graph_stream (Agent.make_input user_input phone_number) session_id
        (Agent.checkpoints w) = (Ok events, Agent.checkpoints w') /\
      Shapes.last_of events = Some state /\
      Shapes.last_of (State.messages state) = Some m /\
      reply = State.content m.
Proof.
  intros graph_stream user_input phone_number session_id now w w' reply H.
  unfold Agent.process_message in H.
  destruct (negb (truthy_str phone_number)); [discriminate|].
  destruct (graph_stream _ session_id (Agent.checkpoints w)) as [events saved] eqn:G.
  destruct events as [events|e]; simpl in H; [|discriminate].
  destruct (Agent.last_message_loop events None) as [[m|]|e] eqn:L; try discriminate.
  inversion H; subst; clear H. simpl.
  destruct (last_message_loop_some events None m L) as [[_ Hn]|[ev [Hl Hm]]];
    [discriminate|].
  exists events, ev, m. repeat split; assumption.
Qed.

Lemma reply_is_last_message_of_last_state_witness :
  Agent.process_message Shapes.answering_graph (Some "hello") (Some "5550000001")
    (Some "thread-1") 0%Z Shapes.empty_world
  = (Ok "Hello, how can I help?",
     snd (Agent.process_message Shapes.answering_graph (Some "hello")
            (Some "5550000001") (Some "thread-1") 0%Z Shapes.empty_world)) /\
  exists events state m,
    Shapes.answering_graph (Agent.make_input (Some "hello") (Some "5550000001"))
      (Some "thread-1") (Agent.checkpoints Shapes.empty_world)
    = (Ok events,
       Agent.checkpoints
         (snd (Agent.process_message Shapes.answering_graph (Some "hello")
                 (Some "5550000001") (Some "thread-1") 0%Z Shapes.empty_world))) /\
    Shapes.last_of events = Some state /\
    Shapes.last_of (State.messages state) = Some m /\
    "Hello, how can I help?" = State.content m.
Proof.
  split; [reflexivity|].
  exact (reply_is_last_message_of_last_state Shapes.answering_graph (Some "hello")
           (Some "5550000001") (Some "thread-1") 0%Z Shapes.empty_world _ _ eq_refl).
Defined.

(** X15.  Whenever [verify_customer] returns, it hands over to [chatbot]
    with one system message and an update that keeps identity and data
    source consistent: the account id, the customer name and [local_data]
    are set exactly when the customer is verified, the usage snapshot
    (balance, days left, usage, read date, charge) exactly when the data
    came from the legacy service, and the registered address exactly when
    it came from the local directory. *)
Theorem verify_customer_updates_are_consistent :
  forall (system_prompt : string) (my_alerts : option string -> option string)
         (my_usage : string -> option Agent.usage)
         (accounts : list Verification.Account) (state : State.UtilityAgentState)
         (output : State.node_output),
    Agent.verify_customer system_prompt my_alerts my_usage accounts state = Ok output ->
    exists u m,
      output = State.Command "chatbot" (Some u) /\
      State.u_messages u = [State.SystemMessage m] /\
      Shapes.update_consistent u = true.
Proof.
  intros system_prompt my_alerts my_usage accounts state output H.
  unfold Agent.verify_customer, Agent.verify_local, Agent.greeting in H.
  destruct (my_alerts (State.phone_number state)) as [aid|].
  - destruct (truthy_str (Some aid)).
    + destruct (my_usage aid) as [data|]; [|discriminate].
      inversion H; subst. eexists. eexists. repeat split.
    + destruct (Agent.lookup_local accounts (State.phone_number state));
        inversion H; subst; eexists; eexists; repeat split.
  - destruct (Agent.lookup_local accounts (State.phone_number state));
      inversion H; subst; eexists; eexists; repeat split.
Qed.

Lemma verify_customer_updates_are_consistent_witness :
  exists u m,
    Agent.verify_customer "You are Billie." Agent.alerts_finds_account
      Shapes.usage_available Verification.sample_accounts
      (Agent.unverified_state None (Some "5550000001") [])
    = Ok (State.Command "chatbot" (Some u)) /\
    State.u_messages u = [State.SystemMessage m] /\
    Shapes.update_consistent u = true.
Proof.
  destruct (verify_customer_updates_are_consistent "You are Billie."
              Agent.alerts_finds_account Shapes.usage_available
              Verification.sample_accounts
              (Agent.unverified_state None (Some "5550000001") []) _ eq_refl)
    as [u [m [Ho [Hm Hc]]]].
  exists u, m. rewrite <- Ho. repeat split; assumption.
Defined.

(* ====================================================================== *)
(** ** Further properties of the tools *)
(* ====================================================================== *)

Section ZipFacts.
Import Zip.

Lemma take_digits_spec (n : nat) (s ds rest : string) :
  take_digits n s = Some (ds, rest) ->
  s = (ds ++ rest)%string /\ String.length ds = n /\ all_chars is_digit ds = true.
Proof.
  revert s ds rest. induction n as [|n IH]; simpl; intros s ds rest H.
  - inversion H; subst. repeat split.
  - destruct s as [|c s]; [discriminate|].
    destruct (is_digit c) eqn:Ec; [|discriminate].
    destruct (take_digits n s) as [[ds' rest']|] eqn:E; [|discriminate].
    inversion H; subst. destruct (IH _ _ _ E) as [-> [Hl Hd]].
    simpl. rewrite Ec, Hd, Hl. repeat split.
Qed.

Lemma take_digits_app (ds rest : string) :
  all_chars is_digit ds = true ->
  take_digits (String.length ds) (ds ++ rest) = Some (ds, rest).
Proof.
  induction ds as [|c ds IH]; simpl; intros H; [reflexivity|].
  apply andb_true_iff in H. destruct H as [Hc Hd].
  rewrite Hc, (IH Hd). reflexivity.
Qed.

Lemma all_digits_app (a b : string) :
  all_chars is_digit (a ++ b) = all_chars is_digit a && all_chars is_digit b.
Proof.
  induction a as [|c a IH]; simpl; [reflexivity|]. rewrite IH, andb_assoc. reflexivity.
Qed.

Lemma append_assoc (a b c : string) : ((a ++ b) ++ c = a ++ (b ++ c))%string.
Proof. induction a as [|x a IH]; simpl; [reflexivity|]. rewrite IH. reflexivity. Qed.

Lemma last_char_append (f : option ascii) (a b : string) :
  last_char f (a ++ b) = last_char (last_char f a) b.
Proof.
  revert f. induction a as [|c a IH]; intros f; simpl; [reflexivity|apply IH].
Qed.

Lemma last_char_nonempty (f g : option ascii) (c : ascii) (s : string) :
  last_char f (String c s) = last_char g (String c s).
Proof. reflexivity. Qed.

Lemma first_char_append (c : ascii) (a b : string) :
  first_char (String c a ++ b) = first_char (String c a).
Proof. reflexivity. Qed.

Lemma strip_prefix_append (z post : string) : strip_prefix z (z ++ post) = Some post.
Proof.
  induction z as [|c z IH]; simpl; [reflexivity|].
  rewrite Ascii.eqb_refl. exact IH.
Qed.

Lemma append_empty (s : string) : (s ++ EmptyString)%string = s.
Proof. induction s as [|c s IH]; simpl; [reflexivity|]. rewrite IH. reflexivity. Qed.

Lemma take_digits_exact (ds : string) :
  all_chars is_digit ds = true ->
  take_digits (String.length ds) ds = Some (ds, EmptyString).
Proof.
  intros H. pose proof (take_digits_app ds EmptyString H) as E.
  rewrite append_empty in E. exact E.
Qed.

Lemma zip_shaped_short (five : string) :
  String.length five = 5 -> all_chars is_digit five = true -> zip_shaped five = true.
Proof.
  intros Hl Hd. pose proof (take_digits_exact five Hd) as E. rewrite Hl in E.
  unfold zip_shaped. rewrite E. reflexivity.
Qed.

Lemma zip_shaped_long (five four : string) (d : ascii) :
  String.length five = 5 -> all_chars is_digit five = true ->
  String.length four = 4 -> all_chars is_digit four = true ->
  (nat_of_ascii d =? 45)%nat = true ->
  zip_shaped (five ++ String d four) = true.
Proof.
  intros Hl Hd Hl4 Hd4 Ed.
  pose proof (take_digits_app five (String d four) Hd) as E. rewrite Hl in E.
  pose proof (take_digits_exact four Hd4) as E4. rewrite Hl4 in E4.
  unfold zip_shaped. rewrite E, Ed, E4. reflexivity.
Qed.

(** A match of the ZIP pattern at one position: what it is and where it
    stands. *)
Lemma zip_here_spec (before : option ascii) (s z : string) :
  zip_here before s = Some z ->
  exists c z' post,
    z = String c z' /\ s = (z ++ post)%string /\ zip_shaped z = true /\
    boundary before (Some c) = true /\
    boundary (last_char None z) (first_char post) = true.
Proof.
  unfold zip_here. destruct (boundary before (first_char s)) eqn:Hb; [|discriminate].
  destruct (take_digits 5 s) as [[five after]|] eqn:E5; [|discriminate].
  destruct (take_digits_spec _ _ _ _ E5) as [Hs [Hl Hd]].
  destruct five as [|c five']; [discriminate|].
  assert (Hfirst : first_char s = Some c) by (rewrite Hs; reflexivity).
  rewrite Hfirst in Hb.
  assert (Hshort : boundary (last_char None (String c five')) (first_char after) = true ->
                   exists c0 z' post,
                     String c five' = String c0 z' /\
                     s = (String c five' ++ post)%string /\
                     zip_shaped (String c five') = true /\
                     boundary before (Some c0) = true /\
                     boundary (last_char None (String c five')) (first_char post) = true).
  { intros Hend. exists c, five', after. repeat split; try assumption.
    apply zip_shaped_short; assumption. }
  destruct after as [|d after_dash].
  - destruct (boundary (last_char None (String c five')) (first_char EmptyString)) eqn:Hend;
      [|discriminate].
    intros H. inversion H; subst z. apply Hshort. reflexivity.
  - destruct (nat_of_ascii d =? 45)%nat eqn:Ed.
    + destruct (take_digits 4 after_dash) as [[four rest]|] eqn:E4.
      * destruct (take_digits_spec _ _ _ _ E4) as [Hs4 [Hl4 Hd4]].
        destruct (boundary (last_char None four) (first_char rest)) eqn:Hend4.
        -- intros H. inversion H; subst z.
           exists c, (five' ++ String d four)%string, rest.
           split; [reflexivity|]. split.
           { rewrite Hs, Hs4. simpl. f_equal.
             rewrite append_assoc. reflexivity. }
           split.
           { apply (zip_shaped_long (String c five') four d); assumption. }
           split; [exact Hb|].
           destruct four as [|f four']; [discriminate|].
           change (String c five' ++ String d (String f four'))%string
             with (String c (five' ++ String d (String f four')))%string.
           simpl. rewrite last_char_append. simpl. simpl in Hend4. exact Hend4.
        -- destruct (boundary (last_char None (String c five'))
                       (first_char (String d after_dash))) eqn:Hend; [|discriminate].
           intros H. inversion H; subst z. apply Hshort. reflexivity.
      * destruct (boundary (last_char None (String c five'))
                    (first_char (String d after_dash))) eqn:Hend; [|discriminate].
        intros H. inversion H; subst z. apply Hshort. reflexivity.
    + destruct (boundary (last_char None (String c five'))
                  (first_char (String d after_dash))) eqn:Hend; [|discriminate].
      intros H. inversion H; subst z. apply Hshort. reflexivity.
Qed.

Lemma zip_search_spec (before : option ascii) (s z : string) :
  zip_search before s = Some z ->
  exists pre post,
    s = (pre ++ z ++ post)%string /\ zip_shaped z = true /\
    boundary (last_char before pre) (first_char z) = true /\
    boundary (last_char None z) (first_char post) = true.
Proof.
  revert before. induction s as [|c s IH]; intros before; simpl.
  - destruct (zip_here before EmptyString) as [z0|] eqn:E; [|discriminate].
    intros H. inversion H; subst z0.
    destruct (zip_here_spec _ _ _ E) as [c0 [z' [post [Hz [Hs [Hsh [Hb He]]]]]]].
    exists EmptyString, post. rewrite Hz in *. repeat split; assumption.
  - destruct (zip_here before (String c s)) as [z0|] eqn:E.
    + intros H. inversion H; subst z0.
      destruct (zip_here_spec _ _ _ E) as [c0 [z' [post [Hz [Hs [Hsh [Hb He]]]]]]].
      exists EmptyString, post. rewrite Hz in *. repeat split; assumption.
    + intros H. destruct (IH _ H) as [pre [post [Hs [Hsh [Hb He]]]]].
      exists (String c pre), post. rewrite Hs. repeat split; assumption.
Qed.

(** The ZIP the first pattern finds is found by the second one. *)
Lemma zip_here_word_here (before : option ascii) (s z : string) :
  zip_here before s = Some z -> word_here z before s = true.
Proof.
  intros H. destruct (zip_here_spec _ _ _ H) as [c [z' [post [Hz [Hs [_ [Hb He]]]]]]].
  unfold word_here. rewrite Hs, strip_prefix_append. subst z. simpl.
  simpl in He. rewrite Hb, He. reflexivity.
Qed.

Lemma zip_search_word_search (before : option ascii) (s z : string) :
  zip_search before s = Some z -> word_search z before s = true.
Proof.
  revert before. induction s as [|c s IH]; intros before; simpl.
  - destruct (zip_here before EmptyString) eqn:E; [|discriminate].
    intros H. inversion H; subst. rewrite (zip_here_word_here _ _ _ E). reflexivity.
  - destruct (zip_here before (String c s)) eqn:E.
    + intros H. inversion H; subst. rewrite (zip_here_word_here _ _ _ E). reflexivity.
    + intros H. rewrite (IH _ H). apply orb_true_r.
Qed.

End ZipFacts.

(** X16.  For an ASCII address, what [extract_zip_code] returns is a ZIP
    code (five digits, or five digits, a dash and four digits) that stands
    in the address, with no letter, digit or underscore directly before or
    after it. *)
Theorem extract_zip_code_returns_a_zip_of_the_address :
  forall (address z : string),
    Zip.all_chars Zip.is_ascii address = true ->
    Zip.extract_zip_code address = Some z ->
    Zip.zip_shaped z = true /\
    exists pre post,
      address = (pre ++ z ++ post)%string /\
      Zip.word_at (Zip.last_char None pre) = false /\
      Zip.word_at (Zip.first_char post) = false.
Proof.
  intros address z _ H. unfold Zip.extract_zip_code in H.
  destruct (zip_search_spec _ _ _ H) as [pre [post [Hs [Hsh [Hb He]]]]].
  split; [exact Hsh|]. exists pre, post. split; [exact Hs|].
  unfold Zip.zip_shaped in Hsh.
  destruct (Zip.take_digits 5 z) as [[five rest]|] eqn:E5; [|discriminate].
  destruct (take_digits_spec _ _ _ _ E5) as [Hz [Hl Hd]].
  destruct five as [|c five']; [discriminate|]. simpl in Hd.
  apply andb_true_iff in Hd. destruct Hd as [Hc Hd'].
  assert (Hw : Zip.is_word c = true) by (unfold Zip.is_word; rewrite Hc; reflexivity).
  split.
  - unfold Zip.boundary in Hb. rewrite Hz in Hb. simpl in Hb. rewrite Hw in Hb.
    destruct (Zip.word_at (Zip.last_char None pre)); [discriminate|reflexivity].
  - assert (Hlast : Zip.word_at (Zip.last_char None z) = true).
    { rewrite Hz. destruct rest as [|d rest'].
      - assert (Hwd : forall s f, Zip.all_chars Zip.is_digit s = true ->
                        Zip.word_at f = true -> Zip.word_at (Zip.last_char f s) = true).
        { induction s as [|x s IHs]; simpl; intros f Hs' Hf; [exact Hf|].
          apply andb_true_iff in Hs'. destruct Hs' as [Hx Hs'].
          apply IHs; [exact Hs'|]. simpl. unfold Zip.is_word. rewrite Hx. reflexivity. }
        simpl. rewrite last_char_append. simpl. apply Hwd; [exact Hd'|exact Hw].
      - apply andb_true_iff in Hsh. destruct Hsh as [_ Hsh].
        destruct (Zip.take_digits 4 rest') as [[four tail]|] eqn:E4; [|discriminate].
        destruct tail; [|discriminate].
        destruct (take_digits_spec _ _ _ _ E4) as [Hr [Hl4 Hd4]].
        destruct four as [|f four']; [discriminate|].
        rewrite Hr. simpl in Hd4. apply andb_true_iff in Hd4. destruct Hd4 as [Hf Hd4].
        assert (Hwd : forall s f0, Zip.all_chars Zip.is_digit s = true ->
                        Zip.word_at f0 = true -> Zip.word_at (Zip.last_char f0 s) = true).
        { induction s as [|x s IHs]; simpl; intros f0 Hs' Hf0; [exact Hf0|].
          apply andb_true_iff in Hs'. destruct Hs' as [Hx Hs'].
          apply IHs; [exact Hs'|]. simpl. unfold Zip.is_word. rewrite Hx. reflexivity. }
        simpl. rewrite last_char_append. simpl. rewrite last_char_append. simpl.
        apply Hwd; [exact Hd4|]. simpl. unfold Zip.is_word. rewrite Hf. reflexivity. }
    unfold Zip.boundary in He. rewrite Hlast in He.
    destruct (Zip.word_at (Zip.first_char post)); [discriminate|reflexivity].
Qed.

Lemma extract_zip_code_returns_a_zip_of_the_address_witness :
  Zip.extract_zip_code "12 Oak St, Dallas, TX 75201-1234, USA" = Some "75201-1234" /\
  Zip.zip_shaped "75201-1234" = true.
Proof.
  split; [reflexivity|].
  exact (proj1 (extract_zip_code_returns_a_zip_of_the_address
                  "12 Oak St, Dallas, TX 75201-1234, USA" "75201-1234"
                  eq_refl eq_refl)).
Defined.

Section OutageFacts.
Import State Tools.

Variable llm : string -> result string.
Variable validate_customer_address : option string -> option (float * float).
Variable fromisoformat : string -> option datetime.
Variable datetime_str : datetime -> string.
Variable uuid4 : string.

(** From the address check on, the table of outages stays as it was or
    gains the one row of a report that succeeded. *)
Lemma report_at_outages (start_time : string) (state : UtilityAgentState)
    (address_string : option string) (e : effects) :
  let out := report_at llm validate_customer_address fromisoformat datetime_str
               uuid4 start_time state address_string e in
  outages (snd out) = outages e \/
  exists o,
    outages (snd out) = outages e ++ [o] /\
    reference_number o = ("OUT-" ++ uuid4)%string /\
    nature o = "Water" /\ status o = "Reported" /\ Scale o = "medium" /\
    outage_account_id o = State.account_id state /\
    outage_name o = State.customer_name state /\
    outage_address o = address_string /\
    validate_customer_address address_string = Some (latitude o, longitude o) /\
    fst out = Ok ("Reported at " ++ fstr address_string ++ ". Start time: "
                  ++ datetime_str (Tools.start_time o) ++ "
Reference number: " ++ "OUT-" ++ uuid4)%string.
Proof.
  unfold report_at.
  destruct (validate_customer_address address_string) as [[lat lon]|];
    [|left; reflexivity].
  simpl. destruct (llm _) as [reply|x]; simpl; [|left; reflexivity].
  destruct (strip reply =? "absent"); simpl; [left; reflexivity|].
  destruct (fromisoformat (strip reply)) as [dt|]; simpl; [|left; reflexivity].
  right. eexists. repeat split.
Qed.

End OutageFacts.

(** X17.  A call of [report_outage] writes at most one outage, and only
    when it answers with the report: the table of outages then gains one
    row with the reference number OUT-<uuid>, nature Water, status
    Reported, scale medium, the customer's account and name and the
    coordinates the validator gave for the stored address; in every other
    outcome, an exception included, the table is as it was. *)
Theorem report_outage_writes_at_most_one_outage :
  forall (llm : string -> result string)
         (validate_customer_address : option string -> option (float * float))
         (fromisoformat : string -> option Tools.datetime)
         (datetime_str : Tools.datetime -> string) (uuid4 : string)
         (clock : Tools.datetime) (start_time : string)
         (state : State.UtilityAgentState) (address address_type : option string)
         (e : Tools.effects),
    let out := Tools.report_outage llm validate_customer_address fromisoformat
                 datetime_str uuid4 clock start_time state address address_type e in
    Tools.outages (snd out) = Tools.outages e \/
    exists o,
      Tools.outages (snd out) = Tools.outages e ++ [o] /\
      Tools.reference_number o = ("OUT-" ++ uuid4)%string /\
      Tools.nature o = "Water" /\ Tools.status o = "Reported" /\
      Tools.Scale o = "medium" /\
      Tools.outage_account_id o = State.account_id state /\
      Tools.outage_name o = State.customer_name state /\
      validate_customer_address (Tools.outage_address o)
        = Some (Tools.latitude o, Tools.longitude o) /\
      fst out = Ok ("Reported at " ++ fstr (Tools.outage_address o)
                    ++ ". Start time: " ++ datetime_str (Tools.start_time o) ++ "
Reference number: " ++ "OUT-" ++ uuid4)%string.
Proof.
  intros llm validate fromiso dstr uuid4 clock start_time state address address_type e out.
  subst out. unfold Tools.report_outage.
  assert (Hat : forall address_string e0,
             Tools.outages e0 = Tools.outages e ->
             let out := Tools.report_at llm validate fromiso dstr uuid4 start_time
                          state address_string e0 in
             Tools.outages (snd out) = Tools.outages e \/
             exists o,
               Tools.outages (snd out) = Tools.outages e ++ [o] /\
               Tools.reference_number o = ("OUT-" ++ uuid4)%string /\
               Tools.nature o = "Water" /\ Tools.status o = "Reported" /\
               Tools.Scale o = "medium" /\
               Tools.outage_account_id o = State.account_id state /\
               Tools.outage_name o = State.customer_name state /\
               validate (Tools.outage_address o)
                 = Some (Tools.latitude o, Tools.longitude o) /\
               fst out = Ok ("Reported at " ++ fstr (Tools.outage_address o)
                             ++ ". Start time: " ++ dstr (Tools.start_time o) ++ "
Reference number: " ++ "OUT-" ++ uuid4)%string).
  { intros address_string e0 He0 out0.
    destruct (report_at_outages llm validate fromiso dstr uuid4 start_time state
                address_string e0) as [H|[o H]].
    - left. subst out0. rewrite H. exact He0.
    - right. exists o. subst out0. rewrite <- He0.
      destruct H as [H1 [H2 [H3 [H4 [H5 [H6 [H7 [H8 [H9 H10]]]]]]]]].
      rewrite H8. repeat split; assumption. }
  destruct address as [a|].
  - simpl. destruct (llm (Tools.extract_address_prompt a)) as [reply|x]; simpl.
    + apply Hat. reflexivity.
    + left. reflexivity.
  - destruct (sql_eq address_type (Some "registered")
              && truthy_bool (State.local_data state)).
    + apply Hat. reflexivity.
    + destruct (_ || _); left; reflexivity.
Qed.

(** X18.  Without an address argument, and for a customer whose data is
    not local (resolved by the legacy service, or not verified), both
    outage tools only ask for the address: they call neither the model nor
    the validator nor the database, also when the registered address was
    asked for. *)
Theorem outage_tools_ask_for_address_first :
  forall (llm : string -> result string)
         (validate_customer_address : option string -> option (float * float))
         (fromisoformat : string -> option Tools.datetime)
         (datetime_str : Tools.datetime -> string) (uuid4 : string)
         (clock : Tools.datetime) (start_time : string)
         (state : State.UtilityAgentState) (address_type : option string)
         (e : Tools.effects),
    truthy_bool (State.local_data state) = false ->
    let question :=
      if sql_eq address_type (Some "registered") || sql_eq address_type (Some "new")
      then "Please provide the address where the outage is occurring."
      else "Do you want to use your registered address or a different address?" in
    Tools.report_outage llm validate_customer_address fromisoformat datetime_str
      uuid4 clock start_time state None address_type e = (Ok question, e) /\
    Zip.check_outage_status llm state None address_type e = (Ok question, e).
Proof.
  intros llm validate fromiso dstr uuid4 clock start_time state address_type e Hl question.
  subst question. unfold Tools.report_outage, Zip.check_outage_status. rewrite Hl.
  simpl. rewrite andb_false_r, andb_true_r. simpl.
  destruct (sql_eq address_type (Some "registered"));
    destruct (sql_eq address_type (Some "new")); split; reflexivity.
Qed.

Lemma outage_tools_ask_for_address_first_witness :
  truthy_bool (State.local_data State.empty_state) = false /\
  Tools.report_outage (fun _ => Ok "x") (fun _ => None) (fun _ => None)
    (fun _ => "t") "u" Tools.reference_now "an hour ago" State.empty_state None
    (Some "registered") {| Tools.outages := []; Tools.prompts := [] |}
  = (Ok "Please provide the address where the outage is occurring.",
     {| Tools.outages := []; Tools.prompts := [] |}).
Proof.
  split; [reflexivity|].
  exact (proj1 (outage_tools_ask_for_address_first (fun _ => Ok "x") (fun _ => None)
                  (fun _ => None) (fun _ => "t") "u" Tools.reference_now "an hour ago"
                  State.empty_state (Some "registered")
                  {| Tools.outages := []; Tools.prompts := [] |} eq_refl)).
Defined.

(** X19.  [get_bill_balance] and [get_payment_link] never answer "No
    billing information found".  With the billing row of a local customer
    missing both raise [AttributeError]; with the balance of that row
    missing, or with the [balance] of a customer whose data is not local
    missing, both raise [TypeError]. *)
Theorem billing_tools_never_report_missing_information :
  forall (format_2f float_str : float -> string) (billing : list Tools.BillingInfo)
         (state : State.UtilityAgentState),
    let balance_tool := Tools.get_bill_balance format_2f billing state in
    let link_tool := Tools.get_payment_link format_2f float_str billing state in
    let no_row :=
      AttributeError "'NoneType' object has no attribute 'current_balance'" in
    let no_amount :=
      TypeError "unsupported format string passed to NoneType.__format__" in
    balance_tool <> Ok "No billing information found" /\
    link_tool <> Ok "No billing information found" /\
    (truthy_bool (State.local_data state) = true ->
     Tools.get_billing_by_customer_id billing (State.account_id state) = None ->
     balance_tool = Raise no_row /\ link_tool = Raise no_row) /\
    (forall row,
        truthy_bool (State.local_data state) = true ->
        Tools.get_billing_by_customer_id billing (State.account_id state) = Some row ->
        Tools.current_balance row = None ->
        balance_tool = Raise no_amount /\ link_tool = Raise no_amount) /\
    (truthy_bool (State.local_data state) = false ->
     State.balance state = None ->
     balance_tool = Raise no_amount /\ link_tool = Raise no_amount).
Proof.
  intros format_2f float_str billing state balance_tool link_tool no_row no_amount.
  subst balance_tool link_tool no_row no_amount.
  unfold Tools.get_bill_balance, Tools.get_payment_link.
  destruct (truthy_bool (State.local_data state)); simpl.
  - destruct (Tools.get_billing_by_customer_id billing (State.account_id state))
      as [b|]; simpl.
    + destruct (Tools.current_balance b) eqn:Eb; simpl.
      * split; [discriminate|]. split; [discriminate|].
        split; [intros _ Hrow; discriminate|].
        split; [|intros Hl; discriminate].
        intros row _ Hrow Hnone. inversion Hrow; subst row. congruence.
      * split; [discriminate|]. split; [discriminate|].
        split; [intros _ Hrow; discriminate|].
        split; [|intros Hl; discriminate].
        intros row _ _ _. split; reflexivity.
    + split; [discriminate|]. split; [discriminate|].
      split; [intros _ _; split; reflexivity|].
      split; [|intros Hl; discriminate].
      intros row _ Hrow. discriminate.
  - split; [|split; [|split; [intros Hl; discriminate|split]]].
    + destruct (State.balance state); simpl; discriminate.
    + destruct (State.balance state); simpl; discriminate.
    + intros row Hl. discriminate.
    + intros _ Hb. rewrite Hb. simpl. split; reflexivity.
Qed.

(** X20.  [get_payment_link] fails exactly when [get_bill_balance] fails,
    and with the same exception; a state on which one of them answers is a
    state on which the other answers. *)
Theorem payment_link_fails_exactly_when_balance_fails :
  forall (format_2f float_str : float -> string) (billing : list Tools.BillingInfo)
         (state : State.UtilityAgentState) (x : exn),
    Tools.get_bill_balance format_2f billing state = Raise x <->
    Tools.get_payment_link format_2f float_str billing state = Raise x.
Proof.
  intros format_2f float_str billing state x.
  unfold Tools.get_bill_balance, Tools.get_payment_link.
  destruct (truthy_bool (State.local_data state)); simpl.
  - destruct (Tools.get_billing_by_customer_id billing (State.account_id state))
      as [b|]; simpl; [|tauto].
    destruct (Tools.current_balance b); simpl; [|tauto].
    split; discriminate.
  - destruct (State.balance state); simpl; [|tauto]. split; discriminate.
Qed.

(** X21.  An outage that was just reported is counted by a later status
    check for the same ZIP code.  The two tool calls ask the model
    separately; when both answers are ASCII and carry the same ZIP code,
    the stored addresses are ASCII and [report_outage] stored the outage,
    [check_outage_status] answers with a count of at least one for that ZIP
    code. *)
Theorem reported_outage_is_counted_by_status_check :
  forall (llm llm' : string -> result string)
         (validate_customer_address : option string -> option (float * float))
         (fromisoformat : string -> option Tools.datetime)
         (datetime_str : Tools.datetime -> string) (uuid4 : string)
         (clock : Tools.datetime)
         (start_time address address' reply reply' z : string)
         (state state' : State.UtilityAgentState)
         (address_type address_type' : option string) (e : Tools.effects),
    llm (Tools.extract_address_prompt address) = Ok reply ->
    llm' (Tools.extract_address_prompt address') = Ok reply' ->
    Zip.all_chars Zip.is_ascii reply = true ->
    Zip.all_chars Zip.is_ascii reply' = true ->
    Shapes.ascii_addresses (Tools.outages e) = true ->
    Zip.extract_zip_code (Tools.strip reply) = Some z ->
    Zip.extract_zip_code (Tools.strip reply') = Some z ->
    let reported :=
      snd (Tools.report_outage llm validate_customer_address fromisoformat
             datetime_str uuid4 clock start_time state (Some address) address_type e) in
    length (Tools.outages reported) = S (length (Tools.outages e)) ->
    let count := length (Zip.get_active_outages_by_zip_code z (Tools.outages reported)) in
    1 <= count /\
    fst (Zip.check_outage_status llm' state' (Some address') address_type' reported)
      = Ok (Zip.outages_message count z).
Proof.
  intros llm llm' validate fromiso dstr uuid4 clock start_time address address'
    reply reply' z state state' address_type address_type' e Hllm Hllm' _ _ _
    Hzip Hzip' reported Hlen count.
  assert (Hne : Tools.strip reply <> EmptyString).
  { intros E. rewrite E in Hzip. discriminate. }
  assert (Hrep : exists o,
             Tools.outages reported = Tools.outages e ++ [o] /\
             Tools.status o = "Reported" /\
             Tools.outage_address o = Some (Tools.strip reply)).
  { subst reported. unfold Tools.report_outage in *. unfold Tools.ask in *.
    rewrite Hllm in *. simpl in *.
    destruct (report_at_outages llm validate fromiso dstr uuid4 start_time state
                (Some (Tools.strip reply))
                {| Tools.outages := Tools.outages e;
                   Tools.prompts := Tools.prompts e
                                    ++ [Tools.extract_address_prompt address] |})
      as [H|[o H]].
    - simpl in H. rewrite H in Hlen. lia.
    - exists o. simpl in H. tauto. }
  destruct Hrep as [o [Ho [Hst Haddr]]].
  assert (Hcount : 1 <= count).
  { subst count. rewrite Ho. unfold Zip.get_active_outages_by_zip_code.
    rewrite filter_app, length_app. simpl. rewrite Hst, Haddr. simpl.
    destruct (Tools.strip reply =? EmptyString) eqn:E;
      [apply String.eqb_eq in E; contradiction|].
    simpl. unfold Zip.extract_zip_code in Hzip.
    rewrite (zip_search_word_search _ _ _ Hzip). simpl. lia. }
  split; [exact Hcount|].
  unfold Zip.check_outage_status, Tools.ask. rewrite Hllm'. simpl.
  unfold Zip.status_at. rewrite Hzip'. simpl.
  fold count.
  destruct (0 <? count)%nat eqn:E; [reflexivity|].
  apply Nat.ltb_ge in E. lia.
Qed.

Lemma reported_outage_is_counted_by_status_check_witness :
  Shapes.sample_llm (Tools.extract_address_prompt "12 oak st dallas 75201")
    = Ok " 12 Oak St, Dallas, TX 75201, USA " /\
  Shapes.status_llm (Tools.extract_address_prompt "oak street, 75201")
    = Ok "Oak Street 12, 75201 Dallas" /\
  Zip.extract_zip_code (Tools.strip " 12 Oak St, Dallas, TX 75201, USA ")
    = Some "75201" /\
  Zip.extract_zip_code (Tools.strip "Oak Street 12, 75201 Dallas") = Some "75201" /\
  fst (Zip.check_outage_status Shapes.status_llm State.empty_state
         (Some "oak street, 75201") None
         (snd (Tools.report_outage Shapes.sample_llm Shapes.sample_validator
                 Shapes.sample_fromisoformat Tools.strftime "0000"
                 Tools.reference_now "an hour ago" State.empty_state
                 (Some "12 oak st dallas 75201") None Shapes.no_effects)))
  = Ok (Zip.outages_message 1 "75201").
Proof.
  split; [reflexivity|]. split; [reflexivity|].
  split; [reflexivity|]. split; [reflexivity|].
  exact (proj2 (reported_outage_is_counted_by_status_check Shapes.sample_llm
                  Shapes.status_llm Shapes.sample_validator
                  Shapes.sample_fromisoformat Tools.strftime "0000"
                  Tools.reference_now "an hour ago" "12 oak st dallas 75201"
                  "oak street, 75201" " 12 Oak St, Dallas, TX 75201, USA "
                  "Oak Street 12, 75201 Dallas" "75201" State.empty_state
                  State.empty_state None None Shapes.no_effects
                  eq_refl eq_refl eq_refl eq_refl eq_refl eq_refl eq_refl eq_refl)).
Defined.

(** X22.  The phone verification tool never confirms a verification: for a
    well-formed number the directory knows, the database call stores the
    verification and the tool still answers with the verification error
    text, because formatting the success text always raises. *)
Theorem verify_tool_answers_error_after_storing :
  forall (accounts : list Verification.Account) (billing : list Tools.BillingInfo)
         (phone_number : string) (state : State.UtilityAgentState) (now : Z)
         (t t1 : Verification.table),
    VerifyTool.ten_digits phone_number = true ->
    Verification.verify_phone_number accounts phone_number None now t = (true, t1) ->
    VerifyTool.verify_phone_number accounts billing phone_number state now t
      = (VerifyTool.error_text phone_number, t1) /\
    existsb (Verification.active_for phone_number) t1 = true.
Proof.
  intros accounts billing phone_number state now t t1 Hd Hv.
  split.
  - unfold VerifyTool.verify_phone_number. rewrite Hd, Hv. simpl.
    destruct phone_number as [|c rest]; [discriminate|]. simpl.
    unfold VerifyTool.success_text, VerifyTool.balance_field.
    destruct (Verification.get_customer_by_phone accounts (Some (String c rest)));
      [|reflexivity].
    destruct (Tools.get_billing_by_customer_id billing _) as [b|]; [|reflexivity].
    destruct (Tools.current_balance b); reflexivity.
  - unfold Verification.verify_phone_number in Hv.
    destruct (Verification.get_customer_by_phone accounts (Some phone_number))
      as [customer|]; [|discriminate].
    destruct (existsb (Verification.active_for phone_number) t) eqn:E;
      inversion Hv; subst t1; [exact E|].
    simpl. unfold Verification.active_for. simpl. rewrite String.eqb_refl. reflexivity.
Qed.

Lemma verify_tool_answers_error_after_storing_witness :
  VerifyTool.ten_digits "5550000003" = true /\
  Verification.verify_phone_number Verification.sample_accounts "5550000003" None
    400 [] = (true, snd (Verification.verify_phone_number Verification.sample_accounts
                           "5550000003" None 400 [])) /\
  VerifyTool.verify_phone_number Verification.sample_accounts Shapes.sample_billing
    "5550000003" State.empty_state 400 []
  = (VerifyTool.error_text "5550000003",
     snd (Verification.verify_phone_number Verification.sample_accounts
            "5550000003" None 400 [])).
Proof.
  split; [reflexivity|]. split; [reflexivity|].
  exact (proj1 (verify_tool_answers_error_after_storing Verification.sample_accounts
                  Shapes.sample_billing "5550000003" State.empty_state 400 [] _
                  eq_refl eq_refl)).
Defined.

(** X23.  For a phone number that is ASCII text: a number that is empty
    or not ten digits never reaches the database (the tool answers with one
    of its two requests and the verification table is the one it was
    given), and the tool's answer is one of four texts, none of them the
    success text. *)
Theorem verify_tool_rejects_malformed_numbers :
  forall (accounts : list Verification.Account) (billing : list Tools.BillingInfo)
         (phone_number : string) (state : State.UtilityAgentState) (now : Z)
         (t : Verification.table),
    Zip.all_chars Zip.is_ascii phone_number = true ->
    let out := VerifyTool.verify_phone_number accounts billing phone_number state
                 now t in
    (VerifyTool.ten_digits phone_number = false ->
     snd out = t /\
     fst out = if phone_number =? EmptyString
               then "Please provide a phone number to verify."
               else "Please provide a valid 10-digit phone number.") /\
    (fst out = "Please provide a phone number to verify." \/
     fst out = "Please provide a valid 10-digit phone number." \/
     fst out = VerifyTool.failed_text phone_number \/
     fst out = VerifyTool.error_text phone_number).
Proof.
  intros accounts billing phone_number state now t _ out. subst out.
  unfold VerifyTool.verify_phone_number. simpl.
  destruct (phone_number =? EmptyString) eqn:Ee; simpl.
  - split; [intros _; split; reflexivity|left; reflexivity].
  - destruct (VerifyTool.ten_digits phone_number) eqn:Ed; simpl.
    + split; [discriminate|].
      destruct (Verification.verify_phone_number accounts phone_number None now t)
        as [ok t1].
      destruct ok; simpl.
      * unfold VerifyTool.success_text, VerifyTool.balance_field.
        destruct (Verification.get_customer_by_phone accounts (Some phone_number));
          [|right; right; right; reflexivity].
        destruct (Tools.get_billing_by_customer_id billing _) as [b|];
          [|right; right; right; reflexivity].
        destruct (Tools.current_balance b); right; right; right; reflexivity.
      * right; right; left; reflexivity.
    + split; [intros _; split; reflexivity|right; left; reflexivity].
Qed.

Lemma verify_tool_rejects_malformed_numbers_witness :
  Zip.all_chars Zip.is_ascii "555-000-0003" = true /\
  VerifyTool.ten_digits "555-000-0003" = false /\
  VerifyTool.verify_phone_number Verification.sample_accounts Shapes.sample_billing
    "555-000-0003" State.empty_state 400 [Verification.sample_row]
  = ("Please provide a valid 10-digit phone number.", [Verification.sample_row]).
Proof.
  split; [reflexivity|]. split; [reflexivity|].
  destruct (proj1 (verify_tool_rejects_malformed_numbers Verification.sample_accounts
                     Shapes.sample_billing "555-000-0003" State.empty_state 400
                     [Verification.sample_row] eq_refl) eq_refl) as [Ht Hm].
  rewrite (surjective_pairing
             (VerifyTool.verify_phone_number Verification.sample_accounts
                Shapes.sample_billing "555-000-0003" State.empty_state 400
                [Verification.sample_row])).
  rewrite Ht, Hm. reflexivity.
Defined.

(** X24.  The chat route never answers with status 400: every failure, a
    missing message or phone number and a validation error of the turn
    included, leaves the route as status 500 with the same detail, because
    the outer handler catches the exceptions the inner code raises; and
    with an empty message or phone number the turn is not started. *)
Theorem chat_route_answers_every_failure_with_500 :
  forall (graph_stream :
            Agent.graph_input -> option string -> list Agent.checkpoint_row ->
            result (list State.UtilityAgentState) * list Agent.checkpoint_row)
         (is_sqlite_error : exn -> bool) (text_to_speech : string -> result string)
         (message phone_number : string) (session_id : option string)
         (use_tts : bool) (now : Agent.datetime) (w : Agent.world),
    let run := Routes.chat graph_stream is_sqlite_error text_to_speech in
    match fst (run message phone_number session_id use_tts now w) with
    | Routes.Respond _ _ => True
    | Routes.HTTPException status_code detail =>
        status_code = 500%Z /\
        detail = "An unexpected error occurred. Please try again."
    end /\
    run EmptyString phone_number session_id use_tts now w
      = (Routes.HTTPException 500 "An unexpected error occurred. Please try again.", w) /\
    run message EmptyString session_id use_tts now w
      = (Routes.HTTPException 500 "An unexpected error occurred. Please try again.", w).
Proof.
  intros graph_stream is_sqlite_error text_to_speech message phone_number session_id
    use_tts now w run. subst run. split; [|split].
  - unfold Routes.chat.
    destruct (Routes.chat_body graph_stream is_sqlite_error text_to_speech message
                phone_number session_id use_tts now w) as [[response audio|code detail] w'];
      simpl; [exact I|split; reflexivity].
  - reflexivity.
  - unfold Routes.chat, Routes.chat_body. simpl.
    destruct (negb (message =? EmptyString)); reflexivity.
Qed.

(** X25.  The meter reading and usage tools answer for the number of the
    one active verification, not for the thread that asks: after a
    successful verification of a number, both tools give every dialogue
    state the answer of that number; and once all verifications are
    cleared they give every state the verification-required text. *)
Theorem meter_tools_follow_the_global_verification :
  forall (format_1f format_2f format_4f float_str : float -> string)
         (strftime_long : Tools.datetime -> string)
         (accounts : list Verification.Account) (readings : list Meter.Reading)
         (history : list Verification.op) (accs : list Verification.Account)
         (p : string) (sid : option string) (now : Z) (t' : Verification.table)
         (state : State.UtilityAgentState),
    Verification.verify_phone_number accs p sid now (Verification.run history)
      = (true, t') ->
    Meter.get_meter_reading format_2f format_4f float_str strftime_long accounts
      readings state t'
    = Meter.meter_reading_for format_2f format_4f float_str strftime_long accounts
        readings p /\
    Meter.analyze_usage_patterns format_1f accounts readings state t'
    = Meter.usage_analysis_for format_1f accounts readings p /\
    Meter.get_meter_reading format_2f format_4f float_str strftime_long accounts
      readings state (snd (Verification.clear_all_phone_verifications t'))
    = Ok Meter.required_text /\
    Meter.analyze_usage_patterns format_1f accounts readings state
      (snd (Verification.clear_all_phone_verifications t'))
    = Ok Meter.required_text.
Proof.
  intros format_1f format_2f format_4f float_str strftime_long accounts readings
    history accs p sid now t' state H.
  destruct (verify_outcome accs p sid now _ t' (run_single_active history) H)
    as [r [Hf [Hp _]]].
  unfold Meter.get_meter_reading, Meter.analyze_usage_patterns.
  unfold Verification.get_active_phone_verification. rewrite Hf. simpl.
  rewrite Hp. repeat split.
Qed.

Lemma meter_tools_follow_the_global_verification_witness :
  Verification.verify_phone_number Verification.sample_accounts "5550000003"
    (Some "s3") 400 (Verification.run Verification.sample_history)
    = (true, [Verification.sample_row]) /\
  Meter.get_meter_reading (fun _ => "0.00") (fun _ => "0.0125") (fun _ => "0.0")
    Tools.strftime Verification.sample_accounts [] State.empty_state
    [Verification.sample_row]
  = Meter.meter_reading_for (fun _ => "0.00") (fun _ => "0.0125") (fun _ => "0.0")
      Tools.strftime Verification.sample_accounts [] "5550000003".
Proof.
  assert (H : Verification.verify_phone_number Verification.sample_accounts
                "5550000003" (Some "s3") 400
                (Verification.run Verification.sample_history)
              = (true, [Verification.sample_row])) by reflexivity.
  split; [exact H|].
  exact (proj1 (meter_tools_follow_the_global_verification (fun _ => "0.0")
                  (fun _ => "0.00") (fun _ => "0.0125") (fun _ => "0.0")
                  Tools.strftime Verification.sample_accounts [] _ _ _ _ _ _
                  State.empty_state H)).
Defined.
